(** * check_dev_tools: the rule-driven tool checker of scripts/check_dev_tools.py

    A shallow embedding of [DevToolsChecker] (probe engine, the three Xcode
    routines and the aggregator) and the properties its specification states
    about it.

    Conventions of the embedding:
    - Python [str] is [string] (texts are taken to be ASCII), [Optional[T]]
      is [option T], a [list] is a [list], a JSON object used as a
      dictionary is a [gmap string _] or, where its keys are fixed by the
      code, a record whose fields are [option]s (an absent key is [None]).
    - A Python exception that leaves a function is the [Raise] outcome of
      [pyres]; a function that falls off its end returns Python's [None].
    - The code only reads its surroundings: the search path, the file system,
      the processes it spawns and the [re] library. They are the fields of
      [World]. Every spawned process is recorded in a log, in order. *)

From stdpp Require Import base option list strings gmap.
From Stdlib Require Import Ascii String.

Local Open Scope string_scope.

(** ** Python values and control *)

Inductive exn : Type :=
| KeyError (key : string)
| TypeError (msg : string)
| IndexError (msg : string)
| ReError (pattern : string)
| OSError (errno : Z) (strerror : string).

Inductive pyres (A : Type) : Type :=
| Ret (a : A)
| Raise (e : exn).
Arguments Ret {A} a.
Arguments Raise {A} e.

(** Truthiness of a string and of an optional string ([if s:]). *)
Definition truthy (s : string) : bool :=
  match s with
  | EmptyString => false
  | String _ _ => true
  end.

Definition truthy_opt (o : option string) : bool :=
  match o with
  | Some s => truthy s
  | None => false
  end.

(** [a or b] on optional strings. *)
Definition py_or (a b : option string) : option string :=
  if truthy_opt a then a else b.

Module PyStr.

Definition chars (s : string) : list ascii := list_ascii_of_string s.
Definition of_chars (l : list ascii) : string := string_of_list_ascii l.

Definition lower_char (c : ascii) : ascii :=
  let n := nat_of_ascii c in
  if (65 <=? n)%nat && (n <=? 90)%nat then ascii_of_nat (n + 32) else c.

(** [s.lower()] *)
Fixpoint lower (s : string) : string :=
  match s with
  | EmptyString => EmptyString
  | String c s' => String (lower_char c) (lower s')
  end.

(** [s.replace(a, b)] for one-character [a] and [b]. *)
Fixpoint replace_char (a b : ascii) (s : string) : string :=
  match s with
  | EmptyString => EmptyString
  | String c s' => String (if Ascii.eqb c a then b else c) (replace_char a b s')
  end.

(** [c.isspace()] on ASCII: TAB, LF, VT, FF, CR, FS, GS, RS, US, space. *)
Definition is_space (c : ascii) : bool :=
  let n := nat_of_ascii c in
  ((9 <=? n)%nat && (n <=? 13)%nat) || ((28 <=? n)%nat && (n <=? 32)%nat).

Fixpoint lstrip (s : string) : string :=
  match s with
  | EmptyString => EmptyString
  | String c s' => if is_space c then lstrip s' else s
  end.

Fixpoint rstrip (s : string) : string :=
  match s with
  | EmptyString => EmptyString
  | String c s' =>
      match rstrip s' with
      | EmptyString => if is_space c then EmptyString else String c EmptyString
      | t => String c t
      end
  end.

(** [s.strip()] *)
Definition strip (s : string) : string := rstrip (lstrip s).

Fixpoint starts_with (p s : string) : bool :=
  match p, s with
  | EmptyString, _ => true
  | String a p', String b s' => Ascii.eqb a b && starts_with p' s'
  | String _ _, EmptyString => false
  end.

(** [p in s] *)
Fixpoint contains (p s : string) : bool :=
  starts_with p s ||
  match s with
  | EmptyString => false
  | String _ s' => contains p s'
  end.

(** [str(o)] inside an f-string. *)
Definition fmt_opt (o : option string) : string :=
  match o with
  | Some s => s
  | None => "None"
  end.

End PyStr.

(** ** The [re] library

    What the checker needs of a match object: [group(0)] and the tuple
    [groups()] of the capturing groups, a group that took no part in the
    match being [None]. *)

Record MatchObj : Type := {
  m_group0 : string;
  m_groups : list (option string)
}.

(** A backtracking matcher for the fragment of the pattern language the
    checker's own patterns are written in: literal characters, [\d],
    escaped punctuation, [.], capturing groups, [|], and the greedy
    [*], [+] and [?]. Any other pattern is outside the fragment and
    [compile] answers [None] for it. *)
Module PyRe.

Inductive regex : Type :=
| Empty
| Lit (c : ascii)
| Digit
| AnyChar
| Cat (r1 r2 : regex)
| Alt (r1 r2 : regex)
| Star (r : regex)
| Plus (r : regex)
| Opt (r : regex)
| Group (n : nat) (r : regex).

Definition is_digit (c : ascii) : bool :=
  let n := nat_of_ascii c in (48 <=? n)%nat && (n <=? 57)%nat.

Definition is_special (c : ascii) : bool :=
  existsb (Ascii.eqb c) (PyStr.chars "()[]{}|*+?^$\.").

Definition is_alnum (c : ascii) : bool :=
  let n := nat_of_ascii (PyStr.lower_char c) in
  is_digit c || ((97 <=? n)%nat && (n <=? 122)%nat).

Definition char_eq (ignorecase : bool) (a b : ascii) : bool :=
  if ignorecase then Ascii.eqb (PyStr.lower_char a) (PyStr.lower_char b)
  else Ascii.eqb a b.

Definition captures : Type := list (nat * string).
Definition answer : Type := option (list ascii * captures).
Definition cont : Type := list ascii -> captures -> answer.

(** [consumed s s'] is the text between the position [s] and the later
    position [s'] of the same subject. *)
Definition consumed (s s' : list ascii) : string :=
  PyStr.of_chars (take (List.length s - List.length s') s).

Fixpoint go (ic : bool) (r : regex) : list ascii -> captures -> cont -> answer :=
  match r with
  | Empty => fun s c k => k s c
  | Lit a => fun s c k =>
      match s with
      | b :: s' => if char_eq ic a b then k s' c else None
      | [] => None
      end
  | Digit => fun s c k =>
      match s with
      | b :: s' => if is_digit b then k s' c else None
      | [] => None
      end
  | AnyChar => fun s c k =>
      match s with
      | b :: s' => if Ascii.eqb b "010"%char then None else k s' c
      | [] => None
      end
  | Cat r1 r2 => fun s c k => go ic r1 s c (fun s' c' => go ic r2 s' c' k)
  | Alt r1 r2 => fun s c k =>
      match go ic r1 s c k with
      | Some a => Some a
      | None => go ic r2 s c k
      end
  | Star r1 => fun s c k =>
      (fix loop (n : nat) (s : list ascii) (c : captures) {struct n} : answer :=
         match n with
         | O => k s c
         | S n' =>
             match go ic r1 s c (fun s' c' =>
                      if (List.length s' <? List.length s)%nat then loop n' s' c'
                      else k s' c') with
             | Some a => Some a
             | None => k s c
             end
         end) (S (List.length s)) s c
  | Plus r1 => fun s c k =>
      go ic r1 s c (fun s1 c1 =>
        (fix loop (n : nat) (s : list ascii) (c : captures) {struct n} : answer :=
           match n with
           | O => k s c
           | S n' =>
               match go ic r1 s c (fun s' c' =>
                        if (List.length s' <? List.length s)%nat then loop n' s' c'
                        else k s' c') with
               | Some a => Some a
               | None => k s c
               end
           end) (S (List.length s1)) s1 c1)
  | Opt r1 => fun s c k =>
      match go ic r1 s c k with
      | Some a => Some a
      | None => k s c
      end
  | Group n r1 => fun s c k =>
      go ic r1 s c (fun s' c' => k s' ((n, consumed s s') :: c'))
  end.

Definition group_value (c : captures) (n : nat) : option string :=
  snd <$> List.find (fun p => Nat.eqb (fst p) n) c.

Definition match_at (ic : bool) (r : regex) (ngroups : nat) (s : list ascii)
  : option MatchObj :=
  match go ic r s [] (fun s' c' => Some (s', c')) with
  | Some (s', c') =>
      Some {| m_group0 := consumed s s';
              m_groups := List.map (group_value c') (seq 1 ngroups) |}
  | None => None
  end.

(** The scan of [re.search]: the first position at which the pattern
    matches, the end of the text included. *)
Fixpoint scan (ic : bool) (r : regex) (ngroups : nat) (s : list ascii)
  : option MatchObj :=
  match match_at ic r ngroups s with
  | Some m => Some m
  | None =>
      match s with
      | [] => None
      | _ :: s' => scan ic r ngroups s'
      end
  end.

(** *** Reading a pattern *)

Definition parsed : Type := option (regex * list ascii * nat).

Definition quantified (a : regex) (s : list ascii) : regex * list ascii :=
  match s with
  | "*"%char :: s' => (Star a, s')
  | "+"%char :: s' => (Plus a, s')
  | "?"%char :: s' => (Opt a, s')
  | _ => (a, s)
  end.

(** [n] counts the groups opened so far; a group takes its number when
    its parenthesis opens. *)
Fixpoint parse_alt (fuel : nat) (s : list ascii) (n : nat) : parsed :=
  match fuel with
  | O => None
  | S f =>
      match parse_cat f s n with
      | Some (r1, "|"%char :: s1, n1) =>
          match parse_alt f s1 n1 with
          | Some (r2, s2, n2) => Some (Alt r1 r2, s2, n2)
          | None => None
          end
      | other => other
      end
  end
with parse_cat (fuel : nat) (s : list ascii) (n : nat) : parsed :=
  match fuel with
  | O => None
  | S f =>
      match s with
      | [] => Some (Empty, s, n)
      | "|"%char :: _ => Some (Empty, s, n)
      | ")"%char :: _ => Some (Empty, s, n)
      | _ =>
          match parse_atom f s n with
          | Some (a, s1, n1) =>
              let (q, s2) := quantified a s1 in
              match parse_cat f s2 n1 with
              | Some (Empty, s3, n3) => Some (q, s3, n3)
              | Some (r, s3, n3) => Some (Cat q r, s3, n3)
              | None => None
              end
          | None => None
          end
      end
  end
with parse_atom (fuel : nat) (s : list ascii) (n : nat) : parsed :=
  match fuel with
  | O => None
  | S f =>
      match s with
      | "("%char :: "?"%char :: _ => None
      | "("%char :: s1 =>
          match parse_alt f s1 (S n) with
          | Some (r, ")"%char :: s2, n2) => Some (Group (S n) r, s2, n2)
          | _ => None
          end
      | "\"%char :: "d"%char :: s1 => Some (Digit, s1, n)
      | "\"%char :: c :: s1 =>
          if is_alnum c then None else Some (Lit c, s1, n)
      | "."%char :: s1 => Some (AnyChar, s1, n)
      | c :: s1 => if is_special c then None else Some (Lit c, s1, n)
      | [] => None
      end
  end.

Definition compile (pattern : string) : option (regex * nat) :=
  let s := PyStr.chars pattern in
  match parse_alt (4 * List.length s + 4) s 0 with
  | Some (r, [], n) => Some (r, n)
  | _ => None
  end.

(** [re.search(pattern, text, re.IGNORECASE if ignorecase else 0)] for the
    patterns of the fragment. A pattern outside it is answered like a
    pattern that does not compile; the machines below only meet patterns of
    the fragment, and every statement made for all worlds holds whatever
    [re_search] the world has. *)
Definition search (pattern : string) (ignorecase : bool) (text : string)
  : pyres (option MatchObj) :=
  match compile pattern with
  | Some (r, n) => Ret (scan ignorecase r n (PyStr.chars text))
  | None => Raise (ReError pattern)
  end.

End PyRe.

(** ** The surroundings of a run *)

Definition argv : Type := list string.

(** What [subprocess.run(command, capture_output=True, text=True, timeout=5)]
    does: it completes with an exit status and the two captured texts, or it
    raises. *)
Inductive proc : Type :=
| Completed (returncode : Z) (stdout stderr : string)
| TimeoutExpired
| FileNotFoundError
| OtherException (msg : string).

Record World : Type := {
  which : string -> option string;          (* shutil.which *)
  path_exists : string -> pyres bool;       (* Path(p).exists() *)
  subprocess_run : argv -> proc;
  re_search : string -> bool -> string -> pyres (option MatchObj)
}.

(** A computation reads the world, returns or raises, and leaves the list of
    the commands it has spawned. *)
Definition M (A : Type) : Type := World -> pyres A * list argv.

#[export] Instance M_ret : MRet M := fun A a _ => (Ret a, []).

#[export] Instance M_bind : MBind M := fun A B k m w =>
  match m w with
  | (Ret a, l1) => let (r, l2) := k a w in (r, (l1 ++ l2)%list)
  | (Raise e, l1) => (Raise e, l1)
  end.

#[export] Instance M_fmap : FMap M := fun A B f m w =>
  match m w with
  | (Ret a, l) => (Ret (f a), l)
  | (Raise e, l) => (Raise e, l)
  end.

Definition raise {A : Type} (e : exn) : M A := fun _ => (Raise e, []).

Definition lift {A : Type} (r : pyres A) : M A := fun _ => (r, []).

Definition ask {A : Type} (f : World -> A) : M A := fun w => (Ret (f w), []).

Definition spawn (command : argv) : M proc :=
  fun w => (Ret (subprocess_run w command), [command]).

(** [Path(p).exists()]: the answer of the file system, or the OSError it
    raises for a path it cannot examine (a name that is too long, a
    directory that may not be searched). *)
Definition path_probe (p : string) : M bool := fun w => (path_exists w p, []).

(** The value and the log of a computation in a world. *)
Definition value {A : Type} (m : M A) (w : World) : pyres A := fst (m w).
Definition spawned {A : Type} (m : M A) (w : World) : list argv := snd (m w).

(** [d[key]] on a dictionary whose key may be absent. *)
Definition item {A : Type} (key : string) (o : option A) : M A :=
  match o with
  | Some a => mret a
  | None => raise (KeyError key)
  end.

(** ** Data model *)

Record Issue : Type := {
  level : string;
  message : string;
  fix_ : option string
}.

Abbreviation Installation := (gmap string string).

Record ToolResult : Type := {
  id : string;
  name : string;
  category : string;
  status : string;
  installed : bool;
  working : bool;
  version : option string;
  path : option string;
  check_type : string;
  issues : list Issue;
  installation : option Installation
}.

(** The ["check"] object of a tool entry of the configuration. *)
Record CheckConfig : Type := {
  chk_type : option string;
  chk_function : option string;
  chk_command : option string;
  chk_version_flag : option string;
  chk_version_regex : option string;
  chk_paths : option (list string)
}.

(** A tool entry of the configuration (a ToolDescriptor). *)
Record ToolConfig : Type := {
  cfg_id : option string;
  cfg_name : option string;
  cfg_category : option string;
  cfg_check : option CheckConfig;
  cfg_installation : option (gmap string Installation)
}.

Record Recommendation : Type := {
  priority : string;
  rec_message : string;
  action : option string
}.

Record Summary : Type := {
  all_required_present : bool;
  required_count : nat;
  required_present : nat;
  optional_count : nat;
  optional_present : nat
}.

(** The report of [run_checks], without its timestamp and its description of
    the machine. *)
Record Report : Type := {
  summary : Summary;
  tools : list ToolResult;
  recommendations : list Recommendation
}.

(** ** DevToolsChecker *)

Definition run_command (command : argv) (check_error : bool)
  : M (bool * string * string) :=
  p ← spawn command;
  mret match p with
       | Completed returncode stdout stderr =>
           (if check_error then Z.eqb returncode 0 else true, stdout, stderr)
       | TimeoutExpired => (false, "", "Command timed out")
       | FileNotFoundError => (false, "", "Command not found")
       | OtherException msg => (false, "", msg)
       end.

(** [match.group(n)] *)
Definition group (m : MatchObj) (n : nat) : pyres (option string) :=
  match n with
  | O => Ret (Some (m_group0 m))
  | S i =>
      match m_groups m !! i with
      | Some g => Ret g
      | None => Raise (IndexError "no such group")
      end
  end.

Definition default_patterns : list string :=
  ["(\d+\.\d+\.\d+)"; "version (\d+\.\d+)"; "v(\d+\.\d+\.\d+)"].

(** The loop over the default patterns. *)
Fixpoint try_patterns (patterns : list string) (output : string)
  : M (option string) :=
  match patterns with
  | [] => mret None
  | pattern :: rest =>
      m ← (fun w => (re_search w pattern true output, []));
      match m with
      | Some mo => lift (group mo 1)
      | None => try_patterns rest output
      end
  end.

Definition extract_version (output : string) (regex : option string)
  : M (option string) :=
  if negb (truthy output) then mret None
  else if truthy_opt regex then
    m ← (fun w => (re_search w (default "" regex) false output, []));
    match m with
    | Some mo =>
        match m_groups mo with
        | _ :: _ => lift (group mo 1)
        | [] => lift (group mo 0)
        end
    | None => try_patterns default_patterns output
    end
  else try_patterns default_patterns output.

Definition fallback_flags : list string := ["-v"; "version"; "-version"; "--version"].

(** The [for flag in ...] loop of [check_command]: [Some output] when it
    breaks, [None] when it runs to its [else]. *)
Fixpoint try_flags (command : string) (flags : list string) : M (option string) :=
  match flags with
  | [] => mret None
  | flag :: rest =>
      '(success, stdout, stderr) ← run_command [command; flag] false;
      if success || truthy stdout || truthy stderr
      then mret (Some (if truthy stdout then stdout else stderr))
      else try_flags command rest
  end.

Definition check_command (command version_flag : string) (version_regex : option string)
  : M (bool * option string * option string) :=
  cmd_path ← ask (fun w => which w command);
  if negb (truthy_opt cmd_path) then mret (false, None, None)
  else
    '(success, stdout, stderr) ← run_command [command; version_flag] false;
    if negb success then
      if truthy stderr then
        version ← extract_version stderr version_regex;
        mret (true, version, cmd_path)
      else
        found ← try_flags command fallback_flags;
        match found with
        | Some output =>
            version ← extract_version output version_regex;
            mret (true, version, cmd_path)
        | None => mret (true, None, cmd_path)
        end
    else
      version ← extract_version (if truthy stdout then stdout else stderr) version_regex;
      mret (true, version, cmd_path).

Definition issue (lvl msg : string) (fx : option string) : Issue :=
  {| level := lvl; message := msg; fix_ := fx |}.

Definition check_xcode : M (option ToolResult) :=
  let xcode_app := "/Applications/Xcode.app" in
  '(success, stdout, stderr) ← run_command ["xcode-select"; "-p"] false;
  let xcode_select_path := if (success : bool) then Some (PyStr.strip stdout) else None in
  app_exists ← path_probe xcode_app;
  if (app_exists : bool) then
    if truthy_opt xcode_select_path
       && PyStr.contains "Xcode.app" (default "" xcode_select_path)
    then
      '(success, stdout, stderr) ← run_command ["xcodebuild"; "-version"] true;
      if (success : bool) then
        ver ← extract_version stdout None;
        '(first_launch_success, _, _) ←
          run_command ["xcodebuild"; "-checkFirstLaunchStatus"] true;
        let found_issues :=
          if negb first_launch_success
          then [issue "warning" "Xcode may need to complete first launch setup"
                  (Some "sudo xcodebuild -runFirstLaunch")]
          else [] in
        mret (Some {| id := "xcode"; name := "Xcode"; category := "required";
                      status := match found_issues with [] => "found" | _ => "warning" end;
                      installed := true; working := true;
                      version := ver; path := xcode_select_path;
                      check_type := "xcode_special"; issues := found_issues;
                      installation := None |})
      else
        (* an issue is appended to the local list and the function ends *)
        mret None
    else
      mret (Some {| id := "xcode"; name := "Xcode"; category := "required";
                    status := "error"; installed := true; working := false;
                    version := None; path := Some xcode_app;
                    check_type := "xcode_special";
                    issues :=
                      [issue "error"
                         ("Xcode.app exists but not selected (current: "
                            ++ PyStr.fmt_opt xcode_select_path ++ ")")
                         (Some "sudo xcode-select -s /Applications/Xcode.app/Contents/Developer")];
                    installation :=
                      Some {[ "method" := "Fix selection";
                              "command" := "sudo xcode-select -s /Applications/Xcode.app/Contents/Developer" ]} |})
  else if truthy_opt xcode_select_path
          && PyStr.contains "CommandLineTools" (default "" xcode_select_path)
  then
    mret (Some {| id := "xcode"; name := "Xcode"; category := "required";
                  status := "not_found"; installed := false; working := false;
                  version := None; path := None; check_type := "xcode_special";
                  issues :=
                    [issue "error" "Only Command Line Tools installed, full Xcode required"
                       (Some "Download Xcode from Mac App Store")];
                  installation :=
                    Some {[ "method" := "Mac App Store";
                            "url" := "https://apps.apple.com/us/app/xcode/id497799835";
                            "notes" := "Full Xcode installation required for building macOS apps" ]} |})
  else
    mret (Some {| id := "xcode"; name := "Xcode"; category := "required";
                  status := "not_found"; installed := false; working := false;
                  version := None; path := None; check_type := "xcode_special";
                  issues :=
                    [issue "error" "Xcode not installed"
                       (Some "Download from Mac App Store or https://developer.apple.com")];
                  installation :=
                    Some {[ "method" := "Mac App Store";
                            "url" := "https://apps.apple.com/us/app/xcode/id497799835" ]} |}).

Definition check_xcode_clt : M ToolResult :=
  '(success, stdout, _) ← run_command ["xcode-select"; "-p"] false;
  if success && truthy (PyStr.strip stdout) then
    mret {| id := "xcode_clt"; name := "Xcode Command Line Tools";
            category := "required"; status := "found";
            installed := true; working := true;
            version := None; path := Some (PyStr.strip stdout);
            check_type := "directory"; issues := []; installation := None |}
  else
    mret {| id := "xcode_clt"; name := "Xcode Command Line Tools";
            category := "required"; status := "not_found";
            installed := false; working := false;
            version := None; path := None; check_type := "directory";
            issues := [issue "error" "Command Line Tools not installed"
                         (Some "xcode-select --install")];
            installation := Some {[ "method" := "xcode-select";
                                    "command" := "xcode-select --install" ]} |}.

Definition check_xcodebuild : M ToolResult :=
  '(success, stdout, stderr) ← run_command ["xcodebuild"; "-version"] true;
  if (success : bool) then
    ver ← extract_version stdout None;
    mret {| id := "xcodebuild"; name := "xcodebuild"; category := "required";
            status := "found"; installed := true; working := true;
            version := ver; path := None; check_type := "command";
            issues := []; installation := None |}
  else
    let '(found_issues, hint) :=
      if PyStr.contains "requires Xcode" stderr then
        ([issue "error" "xcodebuild requires Xcode but only Command Line Tools installed"
            (Some "Install full Xcode from Mac App Store")],
         Some ({[ "method" := "Install Xcode";
                  "url" := "https://apps.apple.com/us/app/xcode/id497799835" ]} : Installation))
      else
        ([issue "error" ("xcodebuild not working: " ++ stderr)
            (Some "Check Xcode installation")],
         None) in
    on_path ← ask (fun w => which w "xcodebuild");
    mret {| id := "xcodebuild"; name := "xcodebuild"; category := "required";
            status := "error";
            installed := match on_path : option string with Some _ => true | None => false end;
            working := false;
            version := None; path := None; check_type := "command";
            issues := found_issues; installation := hint |}.

Definition framework_id (framework_name : string) : string :=
  PyStr.replace_char " " "_" (PyStr.lower framework_name).

(** The [for path in paths: if Path(path).exists(): return ...] loop of
    [check_framework] and of the directory strategy: the path it returns
    at, [None] when it runs to its end. *)
Fixpoint first_existing (paths : list string) : M (option string) :=
  match paths with
  | [] => mret None
  | p :: rest =>
      e ← path_probe p;
      if (e : bool) then mret (Some p) else first_existing rest
  end.

Definition check_framework (framework_name : string) (paths : list string)
  : M ToolResult :=
  hit ← first_existing paths;
  match hit : option string with
  | Some p =>
      mret {| id := framework_id framework_name; name := framework_name;
              category := "project-specific"; status := "found";
              installed := true; working := true;
              version := None; path := Some p; check_type := "framework";
              issues := []; installation := None |}
  | None =>
      mret {| id := framework_id framework_name; name := framework_name;
              category := "project-specific"; status := "not_found";
              installed := false; working := false;
              version := None; path := None; check_type := "framework";
              issues := [issue "warning" (framework_name ++ " not found")
                           (Some "May require Xcode or macOS SDK installation")];
              installation := None |}
  end.

(** [tool_config.get("check", {}).get("type", "command")] *)
Definition config_check_type (tool_config : ToolConfig) : string :=
  match cfg_check tool_config with
  | Some chk => default "command" (chk_type chk)
  | None => "command"
  end.

(** The [return ToolResult(...)] that closes [check_tool]. *)
Definition unknown_check_type (tool_config : ToolConfig) (ty : string) : M (option ToolResult) :=
  i ← item "id" (cfg_id tool_config);
  n ← item "name" (cfg_name tool_config);
  c ← item "category" (cfg_category tool_config);
  mret (Some {| id := i; name := n; category := c;
                status := "error"; installed := false; working := false;
                version := None; path := None; check_type := ty;
                issues := [issue "error" ("Unknown check type: " ++ ty) None];
                installation := None |}).

Definition check_tool (tool_config : ToolConfig) : M (option ToolResult) :=
  let ty := config_check_type tool_config in
  if String.eqb ty "custom" then
    chk ← item "check" (cfg_check tool_config);
    function_name ← item "function" (chk_function chk);
    if String.eqb function_name "check_xcode" then check_xcode
    else if String.eqb function_name "check_xcode_clt" then Some <$> check_xcode_clt
    else if String.eqb function_name "check_xcodebuild" then Some <$> check_xcodebuild
    else unknown_check_type tool_config ty
  else if String.eqb ty "command" then
    chk ← item "check" (cfg_check tool_config);
    command ← item "command" (chk_command chk);
    let version_flag := default "--version" (chk_version_flag chk) in
    let version_regex := chk_version_regex chk in
    '(exists_, ver, cmd_path) ← check_command command version_flag version_regex;
    let hint : option Installation :=
      if negb exists_ then
        match cfg_installation tool_config with
        | Some inst => inst !! "primary"
        | None => None
        end
      else None in
    i ← item "id" (cfg_id tool_config);
    n ← item "name" (cfg_name tool_config);
    c ← item "category" (cfg_category tool_config);
    mret (Some {| id := i; name := n; category := c;
                  status := if exists_ then "found" else "not_found";
                  installed := exists_; working := exists_;
                  version := ver; path := cmd_path; check_type := "command";
                  issues :=
                    if exists_ then []
                    else [issue (if String.eqb c "required" then "error" else "warning")
                            (n ++ " not found")
                            match hint with
                            | Some h => if decide (h = ∅) then None else h !! "command"
                            | None => None
                            end];
                  installation := hint |})
  else if String.eqb ty "directory" then
    chk ← item "check" (cfg_check tool_config);
    paths ← item "paths" (chk_paths chk);
    hit ← first_existing paths;
    i ← item "id" (cfg_id tool_config);
    n ← item "name" (cfg_name tool_config);
    c ← item "category" (cfg_category tool_config);
    match hit : option string with
    | Some p =>
        mret (Some {| id := i; name := n; category := c;
                      status := "found"; installed := true; working := true;
                      version := None; path := Some p; check_type := "directory";
                      issues := []; installation := None |})
    | None =>
        mret (Some {| id := i; name := n; category := c;
                      status := "not_found"; installed := false; working := false;
                      version := None; path := None; check_type := "directory";
                      issues := []; installation := None |})
    end
  else if String.eqb ty "framework" then
    n ← item "name" (cfg_name tool_config);
    chk ← item "check" (cfg_check tool_config);
    paths ← item "paths" (chk_paths chk);
    Some <$> check_framework n paths
  else unknown_check_type tool_config ty.

(** [dataclasses.asdict(result)]: the fields of a ToolResult as they stand,
    a TypeError on anything that is not a dataclass instance. *)
Definition asdict (result : option ToolResult) : M ToolResult :=
  match result with
  | Some r => mret r
  | None => raise (TypeError "asdict() should be called on dataclass instances")
  end.

(** The first loop of [run_checks]. *)
Fixpoint check_all (tool_configs : list ToolConfig) : M (list ToolResult) :=
  match tool_configs with
  | [] => mret []
  | tool :: rest =>
      result ← check_tool tool;
      d ← asdict result;
      ds ← check_all rest;
      mret (d :: ds)
  end.

(** [d.get("installation")] is truthy: present and not the empty dictionary. *)
Definition truthy_hint (tool : ToolResult) : option Installation :=
  match installation tool with
  | Some h => if decide (h = ∅) then None else Some h
  | None => None
  end.

Definition critical_recommendation (tool : ToolResult) : Recommendation :=
  {| priority := "critical";
     rec_message := "Install " ++ name tool ++ " - required for building";
     action := match truthy_hint tool with
               | Some h => py_or (h !! "command") (h !! "url")
               | None => None
               end |}.

Definition low_recommendation (tool : ToolResult) : Recommendation :=
  {| priority := "low";
     rec_message := "Consider installing " ++ name tool;
     action := match truthy_hint tool with
               | Some h => h !! "command"
               | None => None
               end |}.

Definition is_missing (cat : string) (tool : ToolResult) : bool :=
  String.eqb (category tool) cat && negb (working tool).

(** One [for tool in results: if ...: recommendations.append(...)] loop. *)
Definition append_for (cat : string) (mk : ToolResult -> Recommendation)
  (results : list ToolResult) (recs : list Recommendation) : list Recommendation :=
  fold_left (fun acc tool => if is_missing cat tool then (acc ++ [mk tool])%list else acc)
    results recs.

Definition generate_recommendations (results : list ToolResult) : list Recommendation :=
  let recs := [] in
  let recs := append_for "required" critical_recommendation results recs in
  let recs := append_for "optional" low_recommendation results recs in
  recs.

Definition in_category (cat : string) (results : list ToolResult) : list ToolResult :=
  List.filter (fun r => String.eqb (category r) cat) results.

Definition count_working (results : list ToolResult) : nat :=
  List.length (List.filter working results).

Definition summarize (results : list ToolResult) : Summary :=
  let required_tools := in_category "required" results in
  let optional_tools := in_category "optional" results in
  {| all_required_present := forallb working required_tools;
     required_count := List.length required_tools;
     required_present := count_working required_tools;
     optional_count := List.length optional_tools;
     optional_present := count_working optional_tools |}.

Definition run_checks (tool_configs : list ToolConfig) : M Report :=
  results ← check_all tool_configs;
  mret {| summary := summarize results;
          tools := results;
          recommendations := generate_recommendations results |}.

(** The routine a custom entry names, when it is one of the three. *)
Definition custom_routine (tool_config : ToolConfig) : option string :=
  if String.eqb (config_check_type tool_config) "custom" then
    match cfg_check tool_config with
    | Some chk =>
        match chk_function chk with
        | Some f =>
            if String.eqb f "check_xcode" || String.eqb f "check_xcode_clt"
               || String.eqb f "check_xcodebuild"
            then Some f else None
        | None => None
        end
    | None => None
    end
  else None.

Definition is_framework (tool_config : ToolConfig) : bool :=
  String.eqb (config_check_type tool_config) "framework".

(** The category a result carries, by strategy. *)
Definition expected_category (tool_config : ToolConfig) : option string :=
  if is_framework tool_config then Some "project-specific"
  else match custom_routine tool_config with
       | Some _ => Some "required"
       | None => cfg_category tool_config
       end.

(** The results the checker can hand out in a world: those of [check_tool]
    and those of the routines it dispatches to. *)
Inductive produced (w : World) (r : ToolResult) : Prop :=
| produced_check_tool (tool_config : ToolConfig) :
    value (check_tool tool_config) w = Ret (Some r) -> produced w r
| produced_check_xcode :
    value check_xcode w = Ret (Some r) -> produced w r
| produced_check_xcode_clt :
    value check_xcode_clt w = Ret r -> produced w r
| produced_check_xcodebuild :
    value check_xcodebuild w = Ret r -> produced w r
| produced_check_framework (framework_name : string) (paths : list string) :
    value (check_framework framework_name paths) w = Ret r -> produced w r.

(** "The category of the result is the category of the descriptor." *)
Definition category_copied (w : World) (tool_config : ToolConfig) : Prop :=
  forall r, value (check_tool tool_config) w = Ret (Some r) ->
            cfg_category tool_config = Some (category r).

(** ** Concrete machines and configurations *)

Definition argv_eqb (a b : argv) : bool := bool_decide (a = b).

(** A machine with nothing installed. *)
Definition bare_world : World :=
  {| which := fun _ => None;
     path_exists := fun _ => Ret false;
     subprocess_run := fun _ => FileNotFoundError;
     re_search := PyRe.search |}.

(** Xcode.app is present and selected, but [xcodebuild -version] exits with a
    failure status (its licence has not been accepted). *)
Definition unlicensed_xcode_world : World :=
  {| which := fun c => if String.eqb c "xcodebuild" then Some "/usr/bin/xcodebuild" else None;
     path_exists := fun p => Ret (String.eqb p "/Applications/Xcode.app");
     subprocess_run := fun a =>
       if argv_eqb a ["xcode-select"; "-p"]
       then Completed 0 "/Applications/Xcode.app/Contents/Developer
" ""
       else if argv_eqb a ["xcodebuild"; "-version"]
       then Completed 69 "" "You have not agreed to the Xcode license agreements."
       else FileNotFoundError;
     re_search := PyRe.search |}.

Definition custom_config (i n c f : string) : ToolConfig :=
  {| cfg_id := Some i; cfg_name := Some n; cfg_category := Some c;
     cfg_check := Some {| chk_type := Some "custom"; chk_function := Some f;
                          chk_command := None; chk_version_flag := None;
                          chk_version_regex := None; chk_paths := None |};
     cfg_installation := None |}.

Definition xcode_config : ToolConfig :=
  custom_config "xcode" "Xcode" "required" "check_xcode".

Definition paths_config (ty i n c : string) (paths : list string) : ToolConfig :=
  {| cfg_id := Some i; cfg_name := Some n; cfg_category := Some c;
     cfg_check := Some {| chk_type := Some ty; chk_function := None;
                          chk_command := None; chk_version_flag := None;
                          chk_version_regex := None; chk_paths := Some paths |};
     cfg_installation := None |}.

Definition sdk_config : ToolConfig :=
  paths_config "directory" "sdk" "macOS SDK" "optional" ["/does/not/exist"; "/also/missing"].

Definition sdk_missing : ToolResult :=
  {| id := "sdk"; name := "macOS SDK"; category := "optional";
     status := "not_found"; installed := false; working := false;
     version := None; path := None; check_type := "directory";
     issues := []; installation := None |}.

Definition appkit_config : ToolConfig :=
  paths_config "framework" "appkit" "App Kit" "required"
    ["/System/Library/Frameworks/AppKit.framework"].

(** An optional tool that is missing and whose installation hint has a URL
    and no command. *)
Definition gadget_missing : ToolResult :=
  {| id := "gadget"; name := "gadget"; category := "optional";
     status := "not_found"; installed := false; working := false;
     version := None; path := None; check_type := "command";
     issues := [issue "warning" "gadget not found" None];
     installation := Some {[ "method" := "download";
                             "url" := "https://example.com/gadget" ]} |}.

(** The same result for a required tool. *)
Definition gadget_required : ToolResult :=
  {| id := "gadget"; name := "gadget"; category := "required";
     status := "not_found"; installed := false; working := false;
     version := None; path := None; check_type := "command";
     issues := [issue "error" "gadget not found" None];
     installation := installation gadget_missing |}.

(** What [check_xcode] answers on the bare machine. *)
Definition xcode_missing : ToolResult :=
  {| id := "xcode"; name := "Xcode"; category := "required";
     status := "not_found"; installed := false; working := false;
     version := None; path := None; check_type := "xcode_special";
     issues := [issue "error" "Xcode not installed"
                  (Some "Download from Mac App Store or https://developer.apple.com")];
     installation := Some {[ "method" := "Mac App Store";
                             "url" := "https://apps.apple.com/us/app/xcode/id497799835" ]} |}.

Definition bare_report : Report :=
  {| summary := {| all_required_present := false;
                   required_count := 1; required_present := 0;
                   optional_count := 1; optional_present := 0 |};
     tools := [xcode_missing; sdk_missing];
     recommendations :=
       [{| priority := "critical";
           rec_message := "Install Xcode - required for building";
           action := Some "https://apps.apple.com/us/app/xcode/id497799835" |};
        {| priority := "low";
           rec_message := "Consider installing macOS SDK";
           action := None |}] |}.

(** An entry whose strategy tag the checker does not know. *)
Definition docker_config : ToolConfig :=
  {| cfg_id := Some "docker"; cfg_name := Some "Docker"; cfg_category := Some "optional";
     cfg_check := Some {| chk_type := Some "xcode_special"; chk_function := None;
                          chk_command := Some "docker"; chk_version_flag := None;
                          chk_version_regex := None; chk_paths := None |};
     cfg_installation := None |}.

Definition unknown_result (i n c ty : string) : ToolResult :=
  {| id := i; name := n; category := c;
     status := "error"; installed := false; working := false;
     version := None; path := None; check_type := ty;
     issues := [issue "error" ("Unknown check type: " ++ ty) None];
     installation := None |}.

(** The tag is none of the four strategies, or it is [custom] with a routine
    name that is none of the three. *)
Definition unknown_strategy (tool_config : ToolConfig) : Prop :=
  let ty := config_check_type tool_config in
  (ty <> "custom" /\ ty <> "command" /\ ty <> "directory" /\ ty <> "framework")
  \/ (ty = "custom" /\
      exists chk f, cfg_check tool_config = Some chk /\ chk_function chk = Some f /\
                    f <> "check_xcode" /\ f <> "check_xcode_clt" /\ f <> "check_xcodebuild").

(** The outcome of a batch in which the entry between [before] and [after]
    yields [r]. *)
Definition batch_with (r : ToolResult) (before after : pyres (list ToolResult))
  : pyres (list ToolResult) :=
  match before with
  | Ret rs1 =>
      match after with
      | Ret rs2 => Ret (rs1 ++ r :: rs2)%list
      | Raise e => Raise e
      end
  | Raise e => Raise e
  end.

(** A machine on which [/usr/lib] and [/usr] exist. *)
Definition usr_world : World :=
  {| which := fun _ => None;
     path_exists := fun p => Ret (String.eqb p "/usr/lib" || String.eqb p "/usr");
     subprocess_run := fun _ => FileNotFoundError;
     re_search := PyRe.search |}.

Definition usr_config : ToolConfig :=
  paths_config "directory" "libs" "System libraries" "optional"
    ["/does/not/exist"; "/usr/lib"; "/usr"].

(** A candidate path is probed and found missing. *)
Definition missing (w : World) (p : string) : Prop := path_exists w p = Ret false.

(** What the loop over the candidate paths comes to: the first path that
    is there, none, or the error of the first probe that raises. *)
Fixpoint first_hit (w : World) (paths : list string) : pyres (option string) :=
  match paths with
  | [] => Ret None
  | p :: rest =>
      match path_exists w p with
      | Ret true => Ret (Some p)
      | Ret false => first_hit w rest
      | Raise e => Raise e
      end
  end.

(** *** Version extraction as the specification words it

    "First try the custom pattern (first capturing group if present, else
    full match); if no custom pattern or no match, try in order: a three-part
    dotted numeric pattern, a "version X.Y" labeled pattern, a "vX.Y.Z"
    prefixed pattern. Return the first match found anywhere in the text, or
    absence of a version." *)

Definition search_default (w : World) (pattern output : string)
  (otherwise : pyres (option string)) : pyres (option string) :=
  match re_search w pattern true output with
  | Ret (Some mo) => group mo 1
  | Ret None => otherwise
  | Raise e => Raise e
  end.

Definition extract_version_as_specified (w : World) (output : string)
  (regex : option string) : pyres (option string) :=
  let defaults :=
    search_default w "(\d+\.\d+\.\d+)" output
      (search_default w "version (\d+\.\d+)" output
         (search_default w "v(\d+\.\d+\.\d+)" output (Ret None))) in
  match regex with
  | Some pattern =>
      match re_search w pattern false output with
      | Ret (Some mo) =>
          match m_groups mo with
          | first :: _ => Ret first
          | [] => Ret (Some (m_group0 mo))
          end
      | Ret None => defaults
      | Raise e => Raise e
      end
  | None => defaults
  end.

(** The custom pattern the code goes by: an empty pattern string is no
    pattern. *)
Definition given_pattern (regex : option string) : option string :=
  if truthy_opt regex then regex else None.

(** *** Probes *)

(** The text [run_command] reports for a probe that raised; [None] for a
    probe that completed. *)
Definition raised_text (p : proc) : option string :=
  match p with
  | Completed _ _ _ => None
  | TimeoutExpired => Some "Command timed out"
  | FileNotFoundError => Some "Command not found"
  | OtherException msg => Some msg
  end.

(** The text a probe leaves: its standard output, else its standard error,
    else the text of what it raised. *)
Definition probe_output (p : proc) : string :=
  match p with
  | Completed _ stdout stderr => if truthy stdout then stdout else stderr
  | _ => default "" (raised_text p)
  end.

(** A probe that ends the fallback loop: it completed, whatever it printed
    and whatever its exit status, or it raised with a text. *)
Definition settles (p : proc) : bool :=
  match raised_text p with
  | None => true
  | Some msg => truthy msg
  end.

(** The fallback flags the loop gets to, and the text it ends with. *)
Fixpoint flags_tried (w : World) (command : string) (flags : list string) : list string :=
  match flags with
  | [] => []
  | flag :: rest =>
      if settles (subprocess_run w [command; flag]) then [flag]
      else flag :: flags_tried w command rest
  end.

Fixpoint loop_output (w : World) (command : string) (flags : list string) : option string :=
  match flags with
  | [] => None
  | flag :: rest =>
      let p := subprocess_run w [command; flag] in
      if settles p then Some (probe_output p) else loop_output w command rest
  end.

(** The result of a command entry whose executable is on the search path. *)
Definition found_result (i n c : string) (ver cmd_path : option string) : ToolResult :=
  {| id := i; name := n; category := c;
     status := "found"; installed := true; working := true;
     version := ver; path := cmd_path; check_type := "command";
     issues := []; installation := None |}.

Definition found_with (w : World) (i n c : string) (cmd_path : option string)
  (output : string) (regex : option string) : pyres (option ToolResult) :=
  match value (extract_version output regex) w with
  | Ret ver => Ret (Some (found_result i n c ver cmd_path))
  | Raise e => Raise e
  end.

(** The triple of [check_command] for an executable on the search path. *)
Definition with_version (w : World) (cmd_path : option string) (output : string)
  (regex : option string) : pyres (bool * option string * option string) :=
  match value (extract_version output regex) w with
  | Ret ver => Ret (true, ver, cmd_path)
  | Raise e => Raise e
  end.

(** *** The fallback policy as the specification words it

    "If that attempt's exit indicates failure, retry with a fixed fallback
    sequence of alternative flags until one produces any output." *)

Definition exit_failed (p : proc) : bool :=
  match p with
  | Completed returncode _ _ => negb (Z.eqb returncode 0)
  | _ => true
  end.

Fixpoint flags_until_output (w : World) (command : string) (flags : list string)
  : list string :=
  match flags with
  | [] => []
  | flag :: rest =>
      if truthy (probe_output (subprocess_run w [command; flag])) then [flag]
      else flag :: flags_until_output w command rest
  end.

Definition retries_after_failed_exit (w : World) (command version_flag : string)
  (regex : option string) : Prop :=
  truthy_opt (which w command) = true ->
  exit_failed (subprocess_run w [command; version_flag]) = true ->
  spawned (check_command command version_flag regex) w
  = [command; version_flag]
      :: List.map (fun flag => [command; flag])
           (flags_until_output w command fallback_flags).

Definition command_config (i n c command : string) : ToolConfig :=
  {| cfg_id := Some i; cfg_name := Some n; cfg_category := Some c;
     cfg_check := Some {| chk_type := Some "command"; chk_function := None;
                          chk_command := Some command; chk_version_flag := None;
                          chk_version_regex := None; chk_paths := None |};
     cfg_installation := None |}.

Definition widget_config : ToolConfig :=
  command_config "widget" "Widget" "required" "widget".

(** [widget] is on the search path; [widget --version] prints nothing and
    exits with status 1; [widget -v] prints its version. *)
Definition failing_exit_world : World :=
  {| which := fun c => if String.eqb c "widget" then Some "/usr/local/bin/widget" else None;
     path_exists := fun _ => Ret false;
     subprocess_run := fun a =>
       if argv_eqb a ["widget"; "--version"] then Completed 1 "" ""
       else if argv_eqb a ["widget"; "-v"] then Completed 0 "widget 1.2.3" ""
       else FileNotFoundError;
     re_search := PyRe.search |}.

(** The same machine, with [widget --version] running into the timeout. *)
Definition timeout_world : World :=
  {| which := which failing_exit_world;
     path_exists := fun _ => Ret false;
     subprocess_run := fun a =>
       if argv_eqb a ["widget"; "--version"] then TimeoutExpired
       else if argv_eqb a ["widget"; "-v"] then Completed 0 "widget 1.2.3" ""
       else FileNotFoundError;
     re_search := PyRe.search |}.

(** [widget] is on the search path but cannot be spawned, and the error of
    the attempt has no text. *)
Definition silent_world : World :=
  {| which := which failing_exit_world;
     path_exists := fun _ => Ret false;
     subprocess_run := fun _ => OtherException "";
     re_search := PyRe.search |}.

(** ** Configuration *)

Record SystemRequirements : Type := {
  min_macos_version : option string;
  supported_architectures : option (list string)
}.

(** The configuration dictionary: the keys the checker's code names. *)
Record Config : Type := {
  config_version : option string;
  config_tools : option (list ToolConfig);
  system_requirements : option SystemRequirements
}.

Definition get_default_config : Config :=
  {| config_version := Some "1.0.0";
     config_tools := Some [];
     system_requirements :=
       Some {| min_macos_version := Some "13.0";
               supported_architectures := Some ["arm64"; "x86_64"] |} |}.

(** [load_config]. [file] is what there is at [config_path]: nothing, or a
    file that [json.load] reads or fails to read. *)
Definition load_config (file : option (pyres Config)) : pyres Config :=
  match file with
  | Some loaded => loaded
  | None => Ret get_default_config
  end.

(** [DevToolsChecker(config_path).run_checks()], as [main] calls it. *)
Definition checker_run (file : option (pyres Config)) : M Report :=
  config ← lift (load_config file);
  run_checks (default [] (config_tools config)).

(** The status [main] hands to [sys.exit] when it gets to its last lines. *)
Definition exit_status (exit_on_missing : bool) (results : Report) : Z :=
  if exit_on_missing && negb (all_required_present (summary results)) then 1%Z
  else 0%Z.

(** [main], with its arguments parsed. [file] is what there is at the
    configuration path; [emit] is what rendering the report, printing it
    and writing it to the output file come to: they return, or one of them
    raises. Nothing in [main] catches an exception, so [main] either raises
    or gets to [sys.exit], whose status is its value here. *)
Definition main (file : option (pyres Config)) (emit : Report -> pyres unit)
  (exit_on_missing : bool) : M Z :=
  results ← checker_run file;
  _ ← lift (emit results);
  mret (exit_status exit_on_missing results).

(** ** TextFormatter

    Texts outside ASCII stand as the bytes the source file has for them. *)

(** What [get_system_info] gathers; [format] reads it under the key
    ["system"] of the dictionary whose other keys make up [Report]. *)
Record SystemInfo : Type := {
  os : string;
  os_version : string;
  architecture : string;
  hostname : string
}.

Definition ESC : string := String (ascii_of_nat 27) EmptyString.
Definition RED : string := ESC ++ "[0;31m".
Definition GREEN : string := ESC ++ "[0;32m".
Definition YELLOW : string := ESC ++ "[1;33m".
Definition BLUE : string := ESC ++ "[0;34m".
Definition NC : string := ESC ++ "[0m".

Definition glyph_found : string := "âœ“".
Definition glyph_missing : string := "âœ—".
Definition glyph_warning : string := "âš ".
Definition branch_version : string := "  â””â”€ Version: ".
Definition branch_path : string := "  â””â”€ Path: ".
Definition branch_issue : string := "  â””â”€ ".
Definition branch_fix : string := "      Fix: ".
Definition branch_install : string := "  â””â”€ Install: ".
Definition bullet : string := "  â€¢ ".
Definition title : string := "ðŸ” Development Tools Check for Radial Menu".
Definition banner_ready : string := "âœ… All required tools are installed!".
Definition banner_missing : string := "âŒ Some required tools are missing.".

Definition status_icon (tool : ToolResult) : string :=
  if String.eqb (status tool) "found" then GREEN ++ glyph_found ++ NC
  else if String.eqb (status tool) "not_found" then
    if String.eqb (category tool) "required" then RED ++ glyph_missing ++ NC
    else YELLOW ++ glyph_warning ++ NC
  else YELLOW ++ glyph_warning ++ NC.

Definition status_text (tool : ToolResult) : string :=
  (if working tool then "Found" else "Not found")
  ++ (if negb (String.eqb (category tool) "required") && negb (working tool)
      then " (optional)" else "").

(** [if value: lines.append(f"{prefix}{value}")] *)
Definition line_if (prefix : string) (value : option string) : list string :=
  if truthy_opt value then [prefix ++ default "" value] else [].

Definition issue_lines (i : Issue) : list string :=
  (branch_issue ++ message i) :: line_if branch_fix (fix_ i).

(** The line of the installation hint, for a tool that is not working. *)
Definition install_lines (tool : ToolResult) : list string :=
  if negb (working tool) then
    match truthy_hint tool with
    | Some inst =>
        if truthy_opt (inst !! "command")
        then [branch_install ++ default "" (inst !! "command")]
        else if truthy_opt (inst !! "url")
        then [branch_install ++ default "" (inst !! "url")]
        else []
    | None => []
    end
  else [].

Definition headline (tool : ToolResult) : string :=
  "Checking " ++ name tool ++ "... " ++ status_icon tool ++ " " ++ status_text tool.

Definition format_tool (tool : ToolResult) : list string :=
  (headline tool
     :: line_if branch_version (version tool)
     ++ line_if branch_path (path tool)
     ++ flat_map issue_lines (issues tool)
     ++ install_lines tool
     ++ [""])%list.

(** A group of tools under its heading; nothing for an empty group. *)
Definition format_group (heading rule : string) (group : list ToolResult) : list string :=
  match group with
  | [] => []
  | _ => (BLUE ++ heading ++ NC) :: rule :: flat_map format_tool group
  end.

Definition quick_fix_lines (rec : Recommendation) : list string :=
  (bullet ++ rec_message rec) :: line_if "    " (action rec).

Definition system_lines (system : SystemInfo) : list string :=
  [BLUE ++ "System Info:" ++ NC; "------------";
   "OS: " ++ os system ++ " " ++ os_version system;
   "Architecture: " ++ architecture system; ""].

Definition verdict_lines (results : Report) : list string :=
  if all_required_present (summary results) then
    [GREEN ++ banner_ready ++ NC; "";
     "You can now build the project with:"; "  just build"]
  else
    (RED ++ banner_missing ++ NC)
      :: ""
      :: "Please install the missing required tools before proceeding."
      :: match List.filter (fun r => String.eqb (priority r) "critical")
                 (recommendations results) with
         | [] => []
         | critical_recs =>
             "" :: "Quick fixes:" :: flat_map quick_fix_lines critical_recs
         end.

Definition format_lines (system : SystemInfo) (results : Report) : list string :=
  ([title; "==========================================="; ""]
   ++ format_group "Required Tools:" "---------------"
        (in_category "required" (tools results))
   ++ format_group "Optional Tools:" "---------------"
        (in_category "optional" (tools results))
   ++ format_group "Project-Specific Checks:" "------------------------"
        (in_category "project-specific" (tools results))
   ++ system_lines system
   ++ ["==========================================="; ""]
   ++ verdict_lines results
   ++ [""])%list.

(** ["\n".join(lines)] *)
Fixpoint join_lines (lines : list string) : string :=
  match lines with
  | [] => ""
  | [l] => l
  | l :: rest => l ++ String (ascii_of_nat 10) (join_lines rest)
  end.

Definition format (system : SystemInfo) (results : Report) : string :=
  join_lines (format_lines system results).

(** ** Notions the further properties are stated with *)

(** The categories the aggregator looks at. *)
Definition counted (r : ToolResult) : bool :=
  String.eqb (category r) "required" || String.eqb (category r) "optional".

Definition is_critical (rec : Recommendation) : bool :=
  String.eqb (priority rec) "critical".

(** The report [run_checks] assembles from its results. *)
Definition report_of (results : list ToolResult) : Report :=
  {| summary := summarize results;
     tools := results;
     recommendations := generate_recommendations results |}.

(** The installation hint a command entry hands to its result when its
    executable is missing: the ["primary"] entry of its installation
    section. *)
Definition primary_hint (tool_config : ToolConfig) : option Installation :=
  match cfg_installation tool_config with
  | Some inst => inst !! "primary"
  | None => None
  end.

(** How the check of one entry stops a batch: by raising, or by returning
    [None] to [asdict]. *)
Definition fault (outcome : pyres (option ToolResult)) : option exn :=
  match outcome with
  | Raise e => Some e
  | Ret None => Some (TypeError "asdict() should be called on dataclass instances")
  | Ret (Some _) => None
  end.

(** A computation that spawns at most [n] processes, in any world. *)
Definition spawns_at_most {A : Type} (n : nat) (m : M A) : Prop :=
  forall w, List.length (spawned m w) <= n.

(** An entry with no installation section and no [id]. *)
Definition nameless_config : ToolConfig :=
  {| cfg_id := None; cfg_name := Some "Widget"; cfg_category := Some "required";
     cfg_check := None; cfg_installation := None |}.

(** The widget entry with an installation section. *)
Definition widget_with_hint : ToolConfig :=
  {| cfg_id := Some "widget"; cfg_name := Some "Widget"; cfg_category := Some "required";
     cfg_check := cfg_check widget_config;
     cfg_installation :=
       Some {[ "primary" := ({[ "method" := "homebrew";
                                "command" := "brew install widget" ]} : Installation) ]} |}.

(** What [xcode-select -p] names, stripped, when the command could be run. *)
Definition xcode_select_path (w : World) : option string :=
  match subprocess_run w ["xcode-select"; "-p"] with
  | Completed _ stdout _ => Some (PyStr.strip stdout)
  | _ => None
  end.

(** The selected developer directory lies inside an [Xcode.app]. *)
Definition xcode_selected (w : World) : bool :=
  truthy_opt (xcode_select_path w)
  && PyStr.contains "Xcode.app" (default "" (xcode_select_path w)).

(** The process completed with exit status 0. *)
Definition exits_zero (p : proc) : bool :=
  match p with
  | Completed returncode _ _ => Z.eqb returncode 0
  | _ => false
  end.

Definition stderr_of (p : proc) : string :=
  match p with
  | Completed _ _ stderr => stderr
  | _ => default "" (raised_text p)
  end.

(** The triple [run_command] makes of what a process did. *)
Definition reported (check_error : bool) (p : proc) : bool * string * string :=
  match p with
  | Completed returncode stdout stderr =>
      (if check_error then Z.eqb returncode 0 else true, stdout, stderr)
  | _ => (false, "", default "" (raised_text p))
  end.

(** Xcode is installed, selected, licensed and launched. *)
Definition xcode_ready_world : World :=
  {| which := fun c => if String.eqb c "xcodebuild" then Some "/usr/bin/xcodebuild" else None;
     path_exists := fun p => Ret (String.eqb p "/Applications/Xcode.app");
     subprocess_run := fun a =>
       if argv_eqb a ["xcode-select"; "-p"]
       then Completed 0 "/Applications/Xcode.app/Contents/Developer
" ""
       else if argv_eqb a ["xcodebuild"; "-version"]
       then Completed 0 "Xcode 15.0.1
Build version 15A507
" ""
       else if argv_eqb a ["xcodebuild"; "-checkFirstLaunchStatus"]
       then Completed 0 "" ""
       else FileNotFoundError;
     re_search := PyRe.search |}.

Definition xcode_ready : ToolResult :=
  {| id := "xcode"; name := "Xcode"; category := "required";
     status := "found"; installed := true; working := true;
     version := Some "15.0.1";
     path := Some "/Applications/Xcode.app/Contents/Developer";
     check_type := "xcode_special"; issues := []; installation := None |}.

(** [widget] is installed and prints its version. *)
Definition widget_world : World :=
  {| which := which failing_exit_world;
     path_exists := fun _ => Ret false;
     subprocess_run := fun a =>
       if argv_eqb a ["widget"; "--version"] then Completed 0 "widget v1.2.3" ""
       else FileNotFoundError;
     re_search := PyRe.search |}.

(** The widget entry with a version pattern. *)
Definition widget_with_regex (pattern : string) : ToolConfig :=
  {| cfg_id := Some "widget"; cfg_name := Some "Widget"; cfg_category := Some "required";
     cfg_check := Some {| chk_type := Some "command"; chk_function := None;
                          chk_command := Some "widget"; chk_version_flag := None;
                          chk_version_regex := Some pattern; chk_paths := None |};
     cfg_installation := None |}.

(** An ASCII upper-case letter. *)
Definition is_upper (c : ascii) : bool :=
  let n := nat_of_ascii c in (65 <=? n)%nat && (n <=? 90)%nat.

(** The categories [format] has a group for. *)
Definition shown (r : ToolResult) : bool :=
  String.eqb (category r) "required" || String.eqb (category r) "optional"
  || String.eqb (category r) "project-specific".

(** A report with other tools. *)
Definition with_tools (results : Report) (l : list ToolResult) : Report :=
  {| summary := summary results; tools := l;
     recommendations := recommendations results |}.

Definition a_mac : SystemInfo :=
  {| os := "Darwin"; os_version := "14.1"; architecture := "arm64";
     hostname := "build-mac" |}.

(** *** The directory strategy as the specification words it

    "Given an ordered list of candidate filesystem paths, return
    found/installed/working at the first existing path." *)
Definition first_existing_candidate_found
  (w : World) (tool_config : ToolConfig) (paths : list string) : Prop :=
  forall before p after,
    paths = (before ++ p :: after)%list ->
    Forall (fun q => path_exists w q <> Ret true) before ->
    path_exists w p = Ret true ->
    exists r,
      value (check_tool tool_config) w = Ret (Some r)
      /\ status r = "found" /\ installed r = true /\ working r = true
      /\ path r = Some p.

(** A name of 301 characters, longer than a file name can be. *)
Definition long_name : string := "/" ++ PyStr.of_chars (List.repeat "a"%char 300).

(** A machine on which [/usr] exists; probing [long_name] raises the
    OSError of a name that is too long (errno 36). *)
Definition long_name_world : World :=
  {| which := fun _ => None;
     path_exists := fun p =>
       if String.eqb p long_name then Raise (OSError 36 "File name too long")
       else Ret (String.eqb p "/usr");
     subprocess_run := fun _ => FileNotFoundError;
     re_search := PyRe.search |}.

Definition long_name_config : ToolConfig :=
  paths_config "directory" "usr" "System resources" "optional" [long_name; "/usr"].

(** A configuration with the Xcode entry and the SDK entry. *)
Definition two_tools : Config :=
  {| config_version := Some "1.0.0";
     config_tools := Some [xcode_config; sdk_config];
     system_requirements := None |}.

(** ** Reasoning about computations *)

Section Computations.
Context {A B : Type}.
Implicit Types (m : M A) (k : A -> M B) (w : World).

Lemma value_ret (a : A) w : value (mret a) w = Ret a.
Proof. reflexivity. Qed.

Lemma value_ret_inv (a a' : A) w : value (mret a) w = Ret a' -> a = a'.
Proof. unfold value; simpl; congruence. Qed.

Lemma value_bind_eq m k w :
  value (m ≫= k) w
  = match value m w with
    | Ret a => value (k a) w
    | Raise e => Raise e
    end.
Proof.
  unfold value, mbind, M_bind. destruct (m w) as [[a|e] l1]; simpl; [|reflexivity].
  now destruct (k a w).
Qed.

Lemma value_bind m k w a :
  value m w = Ret a -> value (m ≫= k) w = value (k a) w.
Proof.
  unfold value, mbind, M_bind. destruct (m w) as [[a0|e] l1]; simpl; [|discriminate].
  intros [= ->]. now destruct (k a w).
Qed.

Lemma value_bind_raise m k w e :
  value m w = Raise e -> value (m ≫= k) w = Raise e.
Proof.
  unfold value, mbind, M_bind. destruct (m w) as [[a0|e0] l1]; simpl; [discriminate|].
  now intros [= ->].
Qed.

Lemma value_bind_inv m k w b :
  value (m ≫= k) w = Ret b -> exists a, value m w = Ret a /\ value (k a) w = Ret b.
Proof.
  intros H. destruct (value m w) as [a|e] eqn:E.
  - exists a. split; [reflexivity|]. now rewrite (value_bind _ _ _ _ E) in H.
  - now rewrite (value_bind_raise _ _ _ _ E) in H.
Qed.

Lemma value_fmap_inv (f : A -> B) m w b :
  value (f <$> m) w = Ret b -> exists a, value m w = Ret a /\ b = f a.
Proof.
  unfold value, fmap, M_fmap. destruct (m w) as [[a|e] l]; simpl; [|discriminate].
  intros [= <-]. now exists a.
Qed.

Lemma value_item (key : string) (a : A) w : value (item key (Some a)) w = Ret a.
Proof. reflexivity. Qed.

Lemma value_item_inv (key : string) (o : option A) w a :
  value (item key o) w = Ret a -> o = Some a.
Proof. destruct o; unfold value; simpl; congruence. Qed.

Lemma spawned_bind_eq m k w :
  spawned (m ≫= k) w
  = (spawned m w ++ match value m w with
                    | Ret a => spawned (k a) w
                    | Raise e => []
                    end)%list.
Proof.
  unfold value, spawned, mbind, M_bind. destruct (m w) as [[a|e] l1]; simpl.
  - now destruct (k a w).
  - now rewrite app_nil_r.
Qed.

Lemma spawned_bind m k w a :
  value m w = Ret a -> spawned (m ≫= k) w = (spawned m w ++ spawned (k a) w)%list.
Proof.
  unfold value, spawned, mbind, M_bind. destruct (m w) as [[a0|e] l1]; simpl; [|discriminate].
  intros [= ->]. now destruct (k a w).
Qed.

End Computations.

(** Run the first step of a sequence whose head is a [mret] or a present
    [item]. *)
Ltac value_step :=
  rewrite value_bind_eq; rewrite ?value_ret, ?value_item; cbv beta iota.

(** Take a hypothesis [value m w = Ret r] apart along the shape of [m]. *)
Ltac invert_value :=
  repeat match goal with
    | H : value (mret _) _ = Ret _ |- _ => apply value_ret_inv in H
    | H : value (raise _) _ = Ret _ |- _ => discriminate H
    | H : value (item _ _) _ = Ret _ |- _ => apply value_item_inv in H
    | H : value (_ ≫= _) _ = Ret _ |- _ =>
        apply value_bind_inv in H; destruct H as (? & ? & H)
    | H : value (_ <$> _) _ = Ret _ |- _ =>
        apply value_fmap_inv in H; destruct H as (? & H & ?)
    | H : value (match ?x with _ => _ end) _ = Ret _ |- _ => destruct x eqn:?
    end.

(** ** What the routines return *)

Lemma check_xcode_cases w r :
  value check_xcode w = Ret (Some r) ->
  category r = "required" /\
  (installed r = false -> working r = false) /\
  (status r = "not_found" -> working r = false).
Proof.
  unfold check_xcode. intros H. invert_value; simplify_eq/=.
  all: repeat split; try done.
  by destruct (negb _).
Qed.

Lemma check_xcode_clt_cases w r :
  value check_xcode_clt w = Ret r ->
  category r = "required" /\
  (installed r = false -> working r = false) /\
  (status r = "not_found" -> working r = false).
Proof.
  unfold check_xcode_clt. intros H. invert_value; simplify_eq/=; done.
Qed.

Lemma check_xcodebuild_cases w r :
  value check_xcodebuild w = Ret r ->
  category r = "required" /\
  (installed r = false -> working r = false) /\
  (status r = "not_found" -> working r = false).
Proof.
  unfold check_xcodebuild. intros H. invert_value; simplify_eq/=; done.
Qed.

Lemma check_framework_cases w framework_name paths r :
  value (check_framework framework_name paths) w = Ret r ->
  category r = "project-specific" /\
  id r = framework_id framework_name /\
  (installed r = false -> working r = false) /\
  (status r = "not_found" -> working r = false).
Proof.
  unfold check_framework. intros H. invert_value; simplify_eq/=; done.
Qed.


Lemma check_tool_cases w tool_config r :
  value (check_tool tool_config) w = Ret (Some r) ->
  (installed r = false -> working r = false) /\
  (status r = "not_found" -> working r = false) /\
  expected_category tool_config = Some (category r).
Proof.
  unfold check_tool, unknown_check_type, expected_category, custom_routine, is_framework.
  intros H. invert_value; simplify_eq/=.
  all: repeat match goal with
         | E : (_ =? _)%string = true |- _ =>
             apply String.eqb_eq in E; rewrite ?E in *; simplify_eq/=
         | E : value check_xcode _ = Ret _ |- _ =>
             apply check_xcode_cases in E as (-> & ? & ?)
         | E : value check_xcode_clt _ = Ret _ |- _ =>
             apply check_xcode_clt_cases in E as (-> & ? & ?)
         | E : value check_xcodebuild _ = Ret _ |- _ =>
             apply check_xcodebuild_cases in E as (-> & ? & ?)
         | E : value (check_framework _ _) _ = Ret _ |- _ =>
             apply check_framework_cases in E as (-> & ? & ? & ?)
         end.
  all: repeat match goal with E : _ = _ |- _ => rewrite E end; simpl.
  all: try done.
  by destruct b.
Qed.

(** ** The invariants of a result *)

(** C2. Every result the checker produces, by [check_tool] under any strategy
    (the unknown-strategy return included) or by one of the routines
    [check_xcode], [check_xcode_clt], [check_xcodebuild] and
    [check_framework], has [working = false] whenever [installed = false]. *)
Theorem installed_false_implies_working_false (w : World) (r : ToolResult) :
  produced w r -> installed r = false -> working r = false.
Proof.
  intros [tool_config H|H|H|H|framework_name paths H].
  - now apply check_tool_cases in H.
  - now apply check_xcode_cases in H.
  - now apply check_xcode_clt_cases in H.
  - now apply check_xcodebuild_cases in H.
  - now apply check_framework_cases in H.
Qed.

Lemma installed_false_implies_working_false_witness :
  produced bare_world sdk_missing /\ installed sdk_missing = false /\
  working sdk_missing = false.
Proof.
  assert (P : produced bare_world sdk_missing)
    by (apply (produced_check_tool _ _ sdk_config); reflexivity).
  split; [exact P|]. split; [reflexivity|].
  apply (installed_false_implies_working_false bare_world sdk_missing P).
  reflexivity.
Defined.

(** C3, as stated, fails: a framework entry whose category is [required] is
    reported under [project-specific]. *)
Lemma framework_category_not_copied :
  ~ category_copied bare_world appkit_config.
Proof.
  intros H.
  specialize (H _ (eq_refl : value (check_tool appkit_config) bare_world = Ret (Some _))).
  discriminate H.
Qed.

(** C3, amended. The category of a result is the category of its descriptor
    under the command and directory strategies and on the unknown-strategy
    return; a framework result is always [project-specific] and the result
    of a recognised custom routine is always [required]. *)
Theorem category_by_strategy (w : World) (tool_config : ToolConfig) (r : ToolResult) :
  value (check_tool tool_config) w = Ret (Some r) ->
  (is_framework tool_config = true -> category r = "project-specific") /\
  (is_Some (custom_routine tool_config) -> category r = "required") /\
  (is_framework tool_config = false -> custom_routine tool_config = None ->
   cfg_category tool_config = Some (category r)).
Proof.
  intros H. apply check_tool_cases in H as (_ & _ & H).
  unfold expected_category in H.
  assert (F : custom_routine tool_config <> None -> is_framework tool_config = false).
  { unfold custom_routine, is_framework.
    destruct (String.eqb_spec (config_check_type tool_config) "custom") as [->|]; done. }
  repeat split.
  - intros E. rewrite E in H. congruence.
  - intros [f E]. rewrite F, E in H; congruence.
  - intros E1 E2. rewrite E1, E2 in H. exact H.
Qed.

Lemma category_by_strategy_witness :
  cfg_category sdk_config = Some (category sdk_missing).
Proof.
  apply (category_by_strategy bare_world sdk_config sdk_missing); reflexivity.
Defined.

(** ** The aggregator *)

Lemma append_for_spec cat mk results recs :
  append_for cat mk results recs
  = (recs ++ List.map mk (List.filter (is_missing cat) results))%list.
Proof.
  unfold append_for. revert recs.
  induction results as [|tool results IH]; intros recs; simpl.
  - now rewrite app_nil_r.
  - rewrite IH. destruct (is_missing cat tool); simpl; [|reflexivity].
    now rewrite <- app_assoc.
Qed.

(** The two passes, the required one first, each in the order of the
    results. *)
Lemma generate_recommendations_spec results :
  generate_recommendations results
  = (List.map critical_recommendation (List.filter (is_missing "required") results)
     ++ List.map low_recommendation (List.filter (is_missing "optional") results))%list.
Proof.
  unfold generate_recommendations. now rewrite !append_for_spec.
Qed.

Lemma summarize_all_required results :
  all_required_present (summarize results) = true
  <-> forall r, In r results -> category r = "required" -> working r = true.
Proof.
  unfold summarize, in_category; simpl. rewrite forallb_forall. split.
  - intros H r Hr Hc. apply H, filter_In. split; [exact Hr|]. now apply String.eqb_eq.
  - intros H r [Hr Hc]%filter_In. apply H; [exact Hr|]. now apply String.eqb_eq.
Qed.

Lemma critical_for_missing_required results r :
  In r results -> category r = "required" -> working r = false ->
  In (critical_recommendation r) (generate_recommendations results).
Proof.
  intros Hr Hc Hw. rewrite generate_recommendations_spec.
  apply in_or_app. left. apply in_map, filter_In. split; [exact Hr|].
  unfold is_missing. rewrite Hc, Hw. reflexivity.
Qed.

(** C4. The optional pass does not resolve the action the way the required
    pass does: for a missing optional tool whose hint has a URL and no
    command the recommendation carries no action, where the required pass
    gives the URL for the same hint. *)
Theorem optional_recommendation_ignores_url :
  generate_recommendations [gadget_missing]
  = [{| priority := "low"; rec_message := "Consider installing gadget";
        action := None |}]
  /\ generate_recommendations [gadget_required]
     = [{| priority := "critical";
           rec_message := "Install gadget - required for building";
           action := Some "https://example.com/gadget" |}].
Proof. split; vm_compute; reflexivity. Qed.

(** A batch that returns holds, in order, one result for each descriptor. *)
Lemma check_all_results w tool_configs results :
  value (check_all tool_configs) w = Ret results ->
  Forall2 (fun tool_config r => value (check_tool tool_config) w = Ret (Some r))
    tool_configs results.
Proof.
  revert results. induction tool_configs as [|tool rest IH]; intros results H; simpl in H.
  - apply value_ret_inv in H as <-. constructor.
  - unfold asdict in H. invert_value; simplify_eq/=. constructor; [assumption|].
    now apply IH.
Qed.

Lemma check_all_produced w tool_configs results r :
  value (check_all tool_configs) w = Ret results -> In r results -> produced w r.
Proof.
  intros H%check_all_results Hr. induction H as [|tool r' ? ? H0 ? IH]; [destruct Hr|].
  destruct Hr as [->|Hr]; [|now apply IH].
  now apply (produced_check_tool _ _ tool).
Qed.

Lemma not_found_implies_not_working w r :
  produced w r -> status r = "not_found" -> working r = false.
Proof.
  intros [tool_config H|H|H|H|framework_name paths H].
  - now apply check_tool_cases in H.
  - now apply check_xcode_cases in H.
  - now apply check_xcode_clt_cases in H.
  - now apply check_xcodebuild_cases in H.
  - now apply check_framework_cases in H.
Qed.

(** C6. In every report of [run_checks], each result with status
    [not_found] and category [required] has its recommendation of priority
    [critical] in the list of recommendations: no constructor of a
    [not_found] result sets [working], and the required pass emits a
    critical recommendation for every required result that is not working. *)
Theorem not_found_required_is_recommended
  (w : World) (tool_configs : list ToolConfig) (report : Report) (r : ToolResult) :
  value (run_checks tool_configs) w = Ret report ->
  In r (tools report) ->
  status r = "not_found" ->
  category r = "required" ->
  exists rec, In rec (recommendations report)
              /\ priority rec = "critical"
              /\ rec_message rec = "Install " ++ name r ++ " - required for building".
Proof.
  unfold run_checks. intros H Hr Hs Hc. invert_value. subst report. simpl in *.
  exists (critical_recommendation r). split; [|split; reflexivity].
  apply critical_for_missing_required; [assumption..|].
  eapply not_found_implies_not_working; [|exact Hs].
  eapply check_all_produced; eassumption.
Qed.

Lemma not_found_required_is_recommended_witness :
  exists rec, In rec (recommendations bare_report)
              /\ priority rec = "critical"
              /\ rec_message rec = "Install Xcode - required for building".
Proof.
  apply (not_found_required_is_recommended bare_world [xcode_config; sdk_config]
           bare_report xcode_missing).
  - vm_compute; reflexivity.
  - simpl; left; reflexivity.
  - reflexivity.
  - reflexivity.
Defined.

(** ** The probe engine *)

(** C1. With Xcode.app present and selected and [xcodebuild -version]
    exiting with a failure status, [check_xcode] appends its issue and ends
    without a [return]: [check_tool] hands [None] to [run_checks], whose
    [asdict] raises a TypeError, and the batch yields no report. *)
Theorem check_xcode_falls_off_its_end :
  value (check_tool xcode_config) unlicensed_xcode_world = Ret None
  /\ value (run_checks [xcode_config]) unlicensed_xcode_world
     = Raise (TypeError "asdict() should be called on dataclass instances")
  /\ value (run_checks [sdk_config; xcode_config; docker_config]) unlicensed_xcode_world
     = Raise (TypeError "asdict() should be called on dataclass instances").
Proof. repeat split; vm_compute; reflexivity. Qed.

Lemma value_check_all_cons w tool rest :
  value (check_all (tool :: rest)) w
  = match value (check_tool tool) w with
    | Ret (Some r) =>
        match value (check_all rest) w with
        | Ret rs => Ret (r :: rs)
        | Raise e => Raise e
        end
    | Ret None => Raise (TypeError "asdict() should be called on dataclass instances")
    | Raise e => Raise e
    end.
Proof.
  simpl. rewrite value_bind_eq. destruct (value (check_tool tool) w) as [[r|]|e]; try reflexivity.
  rewrite value_bind_eq. simpl. rewrite value_bind_eq.
  now destruct (value (check_all rest) w).
Qed.

Lemma check_all_app w before tool after r :
  value (check_tool tool) w = Ret (Some r) ->
  value (check_all (before ++ tool :: after)) w
  = batch_with r (value (check_all before) w) (value (check_all after) w).
Proof.
  intros H. induction before as [|t before IH].
  - simpl app. rewrite value_check_all_cons, H. reflexivity.
  - rewrite <- app_comm_cons, !value_check_all_cons, IH.
    destruct (value (check_tool t) w) as [[r'|]|e]; try reflexivity.
    destruct (value (check_all before) w) as [rs1|e]; try reflexivity.
    simpl. now destruct (value (check_all after) w).
Qed.

Lemma unknown_strategy_result w tool_config i n c :
  unknown_strategy tool_config ->
  cfg_id tool_config = Some i ->
  cfg_name tool_config = Some n ->
  cfg_category tool_config = Some c ->
  check_tool tool_config w
  = (Ret (Some (unknown_result i n c (config_check_type tool_config))), []).
Proof.
  intros U Hi Hn Hc.
  assert (E : unknown_check_type tool_config (config_check_type tool_config) w
              = (Ret (Some (unknown_result i n c (config_check_type tool_config))), [])).
  { unfold unknown_check_type. rewrite Hi, Hn, Hc. reflexivity. }
  unfold check_tool.
  destruct U as [(N1 & N2 & N3 & N4)|(T & chk & f & Hchk & Hf & N1 & N2 & N3)].
  - apply String.eqb_neq in N1, N2, N3, N4. rewrite N1, N2, N3, N4. exact E.
  - assert (Hty : String.eqb (config_check_type tool_config) "custom" = true)
      by (rewrite T; reflexivity).
    apply String.eqb_neq in N1, N2, N3.
    rewrite Hty. unfold mbind, M_bind. rewrite Hchk. simpl. rewrite Hf. simpl.
    rewrite N1, N2, N3, E. reflexivity.
Qed.

(** C9. An entry whose strategy tag is unknown, or whose tag is [custom] with
    a routine name that is none of the three, yields without any probe an
    [error] result for that entry carrying the issue "Unknown check type:"
    followed by the tag; and the batch goes on: its outcome is that of the
    entries before and after with this result at its place. *)
Theorem unknown_strategy_is_an_error_result
  (w : World) (tool_config : ToolConfig) (i n c : string)
  (before after : list ToolConfig) :
  unknown_strategy tool_config ->
  cfg_id tool_config = Some i ->
  cfg_name tool_config = Some n ->
  cfg_category tool_config = Some c ->
  let r := unknown_result i n c (config_check_type tool_config) in
  value (check_tool tool_config) w = Ret (Some r)
  /\ spawned (check_tool tool_config) w = []
  /\ status r = "error"
  /\ issues r = [issue "error" ("Unknown check type: " ++ config_check_type tool_config) None]
  /\ value (check_all (before ++ tool_config :: after)) w
     = batch_with r (value (check_all before) w) (value (check_all after) w).
Proof.
  intros U Hi Hn Hc r.
  pose proof (unknown_strategy_result w _ _ _ _ U Hi Hn Hc) as E.
  assert (V : value (check_tool tool_config) w = Ret (Some r))
    by (unfold value; now rewrite E).
  repeat split; try assumption.
  - unfold spawned. now rewrite E.
  - now apply check_all_app.
Qed.

Lemma unknown_strategy_is_an_error_result_witness :
  value (check_all [sdk_config; docker_config; xcode_config]) bare_world
  = Ret [sdk_missing; unknown_result "docker" "Docker" "optional" "xcode_special";
         xcode_missing].
Proof.
  refine (eq_trans
    (proj2 (proj2 (proj2 (proj2
       (unknown_strategy_is_an_error_result bare_world docker_config
          "docker" "Docker" "optional" [sdk_config] [xcode_config] _ _ _ _))))) _).
  - left. repeat split; discriminate.
  - reflexivity.
  - reflexivity.
  - reflexivity.
  - vm_compute; reflexivity.
Defined.

(** ** Candidate paths *)

Lemma first_existing_spec w paths :
  first_existing paths w = (first_hit w paths, []).
Proof.
  induction paths as [|p rest IH]; [reflexivity|].
  simpl. unfold mbind, M_bind, path_probe.
  destruct (path_exists w p) as [[|]|e]; try reflexivity. now rewrite IH.
Qed.

Lemma value_first_existing w paths :
  value (first_existing paths) w = first_hit w paths.
Proof. unfold value. now rewrite first_existing_spec. Qed.

Lemma value_path_probe w p : value (path_probe p) w = path_exists w p.
Proof. reflexivity. Qed.

Lemma first_hit_first_match (w : World) before p after :
  Forall (missing w) before -> path_exists w p = Ret true ->
  first_hit w (before ++ p :: after) = Ret (Some p).
Proof.
  intros Hb Hp. induction Hb as [|q before Hq _ IH]; simpl.
  - now rewrite Hp.
  - unfold missing in Hq. now rewrite Hq.
Qed.

Lemma first_hit_no_match (w : World) paths :
  Forall (missing w) paths -> first_hit w paths = Ret None.
Proof.
  induction 1 as [|q paths Hq _ IH]; [reflexivity|].
  unfold missing in Hq. simpl. now rewrite Hq.
Qed.

Lemma first_hit_some_inv (w : World) paths p :
  first_hit w paths = Ret (Some p) ->
  exists before after,
    paths = (before ++ p :: after)%list
    /\ Forall (missing w) before /\ path_exists w p = Ret true.
Proof.
  induction paths as [|q rest IH]; [discriminate|]. simpl.
  destruct (path_exists w q) as [[|]|e] eqn:E; [|intros H|discriminate].
  - intros [= ->]. exists [], rest. repeat split; [constructor|exact E].
  - destruct (IH H) as (before & after & -> & Hb & Hp).
    exists (q :: before), after. repeat split; [constructor; assumption|exact Hp].
Qed.

Lemma first_hit_none_inv (w : World) paths :
  first_hit w paths = Ret None -> Forall (missing w) paths.
Proof.
  induction paths as [|q rest IH]; [constructor|]. simpl.
  destruct (path_exists w q) as [[|]|e] eqn:E; try discriminate.
  intros H. constructor; [exact E|now apply IH].
Qed.

Lemma first_hit_probed (w : World) paths :
  Forall (fun q => exists b, path_exists w q = Ret b) paths ->
  exists hit, first_hit w paths = Ret hit.
Proof.
  induction 1 as [|q paths [b Hq] _ [hit IH]]; [now exists None|].
  simpl. rewrite Hq. destruct b; eauto.
Qed.

Lemma directory_result w tool_config chk paths i n c :
  cfg_check tool_config = Some chk ->
  chk_type chk = Some "directory" ->
  chk_paths chk = Some paths ->
  cfg_id tool_config = Some i ->
  cfg_name tool_config = Some n ->
  cfg_category tool_config = Some c ->
  value (check_tool tool_config) w
  = match first_hit w paths with
    | Ret (Some p) =>
        Ret (Some {| id := i; name := n; category := c;
                     status := "found"; installed := true; working := true;
                     version := None; path := Some p; check_type := "directory";
                     issues := []; installation := None |})
    | Ret None =>
        Ret (Some {| id := i; name := n; category := c;
                     status := "not_found"; installed := false; working := false;
                     version := None; path := None; check_type := "directory";
                     issues := []; installation := None |})
    | Raise e => Raise e
    end.
Proof.
  intros Hchk Hty Hpaths Hi Hn Hc.
  unfold check_tool, config_check_type. rewrite Hchk, Hty, Hi, Hn, Hc. simpl.
  value_step. rewrite Hpaths. value_step.
  rewrite value_bind_eq, value_first_existing.
  destruct (first_hit w paths) as [[p|]|e]; [| |reflexivity]; now do 3 value_step.
Qed.




Lemma framework_result w tool_config chk paths n :
  cfg_check tool_config = Some chk ->
  chk_type chk = Some "framework" ->
  cfg_name tool_config = Some n ->
  chk_paths chk = Some paths ->
  value (check_tool tool_config) w = value (Some <$> check_framework n paths) w.
Proof.
  intros Hchk Hty Hn Hpaths.
  unfold check_tool, config_check_type. rewrite Hchk, Hty, Hn. simpl.
  do 2 value_step. rewrite Hpaths. now value_step.
Qed.

(** C10. The id of every result of a framework entry is the display name
    of its descriptor in lower case with every space replaced by an
    underscore, whatever the descriptor's own id is (it may even be absent),
    both for the [found] result, returned when a candidate path exists, and
    for the [not_found] result, returned when none does; and a result is
    returned whenever the candidate paths can be probed. *)
Theorem framework_id_from_name
  (w : World) (tool_config : ToolConfig) (chk : CheckConfig)
  (paths : list string) (n : string) :
  cfg_check tool_config = Some chk ->
  chk_type chk = Some "framework" ->
  cfg_name tool_config = Some n ->
  chk_paths chk = Some paths ->
  (forall r,
      value (check_tool tool_config) w = Ret (Some r) ->
      id r = PyStr.replace_char " " "_" (PyStr.lower n)
      /\ ((status r = "found" /\ exists p, first_hit w paths = Ret (Some p))
          \/ (status r = "not_found" /\ first_hit w paths = Ret None)))
  /\ (Forall (fun q => exists b, path_exists w q = Ret b) paths ->
      exists r, value (check_tool tool_config) w = Ret (Some r)).
Proof.
  intros Hchk Hty Hn Hpaths.
  rewrite (framework_result w tool_config chk paths n Hchk Hty Hn Hpaths).
  unfold value, fmap, M_fmap, check_framework, mbind, M_bind.
  rewrite first_existing_spec. split.
  - intros r. destruct (first_hit w paths) as [[p|]|e]; simpl; [| |discriminate];
      intros [= <-]; (split; [reflexivity|]); eauto.
  - intros [hit H]%first_hit_probed. rewrite H. destruct hit; simpl; eauto.
Qed.

Lemma framework_id_from_name_witness :
  exists r,
    value (check_tool appkit_config) bare_world = Ret (Some r)
    /\ cfg_id appkit_config = Some "appkit"
    /\ id r = "app_kit"
    /\ status r = "not_found".
Proof.
  destruct (framework_id_from_name bare_world appkit_config
              {| chk_type := Some "framework"; chk_function := None;
                 chk_command := None; chk_version_flag := None;
                 chk_version_regex := None;
                 chk_paths := Some ["/System/Library/Frameworks/AppKit.framework"] |}
              ["/System/Library/Frameworks/AppKit.framework"] "App Kit"
              eq_refl eq_refl eq_refl eq_refl)
    as (Hid & Hret).
  destruct Hret as (r & Hr).
  - repeat constructor. now exists false.
  - exists r. split; [exact Hr|]. split; [reflexivity|].
    destruct (Hid r Hr) as (I & [(_ & p & F)|(S & _)]); [discriminate F|].
    split; [exact I|exact S].
Defined.

(** ** Version extraction *)

Lemma try_patterns_spec w output :
  try_patterns default_patterns output w
  = (search_default w "(\d+\.\d+\.\d+)" output
       (search_default w "version (\d+\.\d+)" output
          (search_default w "v(\d+\.\d+\.\d+)" output (Ret None))), []).
Proof.
  unfold default_patterns, try_patterns, search_default, mbind, M_bind, lift.
  repeat match goal with
         | |- context [re_search w ?p true output] =>
             destruct (re_search w p true output) as [[mo|]|e]; try reflexivity
         end.
Qed.

Lemma extract_version_empty w regex : extract_version "" regex w = (Ret None, []).
Proof. reflexivity. Qed.

Lemma extract_version_spec w output regex :
  truthy output = true ->
  extract_version output regex w
  = (extract_version_as_specified w output (given_pattern regex), []).
Proof.
  intros T. unfold extract_version, extract_version_as_specified, given_pattern.
  rewrite T. cbn [negb]. destruct (truthy_opt regex) eqn:E.
  - destruct regex as [pattern|]; [|discriminate E].
    change (default "" (Some pattern)) with pattern.
    unfold mbind, M_bind, lift.
    destruct (re_search w pattern false output) as [[mo|]|e]; try reflexivity.
    + destruct mo as [g0 [|g gs]]; reflexivity.
    + now rewrite try_patterns_spec.
  - apply try_patterns_spec.
Qed.

(** C7, as stated, fails on an empty text: the pattern [.*] matches it, with
    the empty string as its full match, but no pattern is tried on an empty
    text and no version is returned. *)
Lemma empty_output_is_never_searched :
  re_search bare_world ".*" false ""
  = Ret (Some {| m_group0 := ""; m_groups := [] |})
  /\ extract_version_as_specified bare_world "" (Some ".*") = Ret (Some "")
  /\ value (extract_version "" (Some ".*")) bare_world = Ret None
  /\ value (extract_version "" (Some ".*")) bare_world
     <> extract_version_as_specified bare_world "" (Some ".*").
Proof. repeat split; try (vm_compute; reflexivity). vm_compute. discriminate. Qed.

(** C7, amended. On a non-empty text, version extraction first tries the
    custom pattern, an empty pattern string counting as no pattern, and
    returns its first capturing group if the pattern has groups, else the
    full match; with no custom pattern or no match it tries in order the
    three-part dotted numeric pattern, the "version X.Y" pattern and the
    "vX.Y.Z" pattern, without regard to case, and returns the first match
    found in the text or no version. On an empty text no pattern is tried
    and no version is returned. In particular "tool version 12.3" yields
    "12.3" and "v1.2.3 release" yields "1.2.3". No process is spawned. *)
Theorem extract_version_tries_in_order (w : World) (output : string) (regex : option string) :
  truthy output = true ->
  value (extract_version output regex) w
  = extract_version_as_specified w output (given_pattern regex)
  /\ spawned (extract_version output regex) w = []
  /\ extract_version "" regex w = (Ret None, [])
  /\ value (extract_version "tool version 12.3" None) bare_world = Ret (Some "12.3")
  /\ value (extract_version "v1.2.3 release" None) bare_world = Ret (Some "1.2.3").
Proof.
  intros T. unfold value, spawned. rewrite (extract_version_spec w output regex T).
  repeat split; vm_compute; reflexivity.
Qed.

Lemma extract_version_tries_in_order_witness :
  value (extract_version "Apple clang version 15.0.0 (clang-1500.3.9.4)" (Some "clang-(\d+)"))
    bare_world
  = Ret (Some "1500").
Proof.
  refine (eq_trans
    (proj1 (extract_version_tries_in_order bare_world
              "Apple clang version 15.0.0 (clang-1500.3.9.4)" (Some "clang-(\d+)") _)) _).
  - reflexivity.
  - vm_compute; reflexivity.
Defined.

(** ** The command strategy *)

Lemma run_command_spec w command check_error :
  run_command command check_error w
  = (Ret match subprocess_run w command with
         | Completed returncode stdout stderr =>
             (if check_error then Z.eqb returncode 0 else true, stdout, stderr)
         | p => (false, "", default "" (raised_text p))
         end, [command]).
Proof.
  unfold run_command, mbind, M_bind, spawn. simpl.
  now destruct (subprocess_run w command).
Qed.

Lemma try_flags_spec w command flags :
  try_flags command flags w
  = (Ret (loop_output w command flags),
     List.map (fun flag => [command; flag]) (flags_tried w command flags)).
Proof.
  induction flags as [|flag rest IH]; [reflexivity|].
  cbn [try_flags flags_tried loop_output]. unfold mbind, M_bind.
  rewrite run_command_spec.
  destruct (subprocess_run w [command; flag]) as [rc out err| | |msg]; try reflexivity.
  unfold settles. simpl. destruct (truthy msg); [reflexivity|]. now rewrite IH.
Qed.

Lemma loop_output_origin w command flags output :
  loop_output w command flags = Some output ->
  exists flag, In flag flags /\ output = probe_output (subprocess_run w [command; flag]).
Proof.
  induction flags as [|flag rest IH]; [discriminate|]. simpl.
  destruct (settles _).
  - intros [= <-]. exists flag. now split; [left|].
  - intros (f & ? & ?)%IH. exists f. now split; [right|].
Qed.

Lemma extract_version_pure w output regex :
  extract_version output regex w = (value (extract_version output regex) w, []).
Proof.
  destruct (truthy output) eqn:T.
  - unfold value. now rewrite (extract_version_spec w output regex T).
  - destruct output; [reflexivity|discriminate T].
Qed.

Lemma check_command_spec w command version_flag regex :
  truthy_opt (which w command) = true ->
  check_command command version_flag regex w
  = match raised_text (subprocess_run w [command; version_flag]) with
    | None =>
        (with_version w (which w command)
           (probe_output (subprocess_run w [command; version_flag])) regex,
         [[command; version_flag]])
    | Some msg =>
        if truthy msg
        then (with_version w (which w command) msg regex, [[command; version_flag]])
        else (match loop_output w command fallback_flags with
              | Some output => with_version w (which w command) output regex
              | None => Ret (true, None, which w command)
              end,
              [command; version_flag]
                :: List.map (fun flag => [command; flag])
                     (flags_tried w command fallback_flags))
    end.
Proof.
  intros Hw. unfold check_command, with_version, mbind, M_bind, ask. rewrite Hw.
  cbn [negb]. rewrite run_command_spec.
  destruct (subprocess_run w [command; version_flag]) as [rc out err| | |msg];
    cbn [raised_text probe_output negb truthy from_option Datatypes.id];
    try (rewrite extract_version_pure;
         now destruct (value (extract_version _ regex) w)).
  destruct (truthy msg).
  - rewrite extract_version_pure. now destruct (value (extract_version _ regex) w).
  - rewrite try_flags_spec.
    destruct (loop_output w command fallback_flags) as [output|].
    + rewrite extract_version_pure.
      destruct (value (extract_version output regex) w);
        unfold mret, M_ret; cbv beta iota; now rewrite ?app_nil_r.
    + unfold mret, M_ret. cbv beta iota. now rewrite ?app_nil_r.
Qed.

Lemma command_entry_found w tool_config chk command i n c :
  cfg_check tool_config = Some chk ->
  config_check_type tool_config = "command" ->
  chk_command chk = Some command ->
  cfg_id tool_config = Some i ->
  cfg_name tool_config = Some n ->
  cfg_category tool_config = Some c ->
  truthy_opt (which w command) = true ->
  check_tool tool_config w
  = match check_command command (default "--version" (chk_version_flag chk))
            (chk_version_regex chk) w with
    | (Ret (_, ver, cmd_path), l) => (Ret (Some (found_result i n c ver cmd_path)), l)
    | (Raise e, l) => (Raise e, l)
    end.
Proof.
  intros Hchk Hty Hcmd Hi Hn Hc Hw.
  pose proof (check_command_spec w command (default "--version" (chk_version_flag chk))
                (chk_version_regex chk) Hw) as E.
  unfold check_tool. rewrite Hty, Hchk, Hi, Hn, Hc.
  change (String.eqb "command" "custom") with false.
  change (String.eqb "command" "command") with true. cbv iota.
  unfold mbind, M_bind, item, mret, M_ret. rewrite Hcmd. cbv beta iota.
  destruct (check_command _ _ _ w) as [[[[e ver] cmd_path]|e] l]; [|reflexivity].
  assert (e = true) as ->.
  { unfold with_version in E.
    repeat match type of E with
           | _ = match ?x with _ => _ end => destruct x
           | _ = if ?x then _ else _ => destruct x
           | _ = (match ?x with _ => _ end, _) => destruct x
           end; congruence. }
  simpl. now rewrite ?app_nil_r.
Qed.

(** C5. [check_command] runs its primary probe without [check_error], so
    that a probe that exits with status 1 and prints nothing counts as a
    success: no fallback flag is tried, although [-v] would have printed a
    version, the only process spawned is the primary probe and no version
    is reported. Nor is a primary probe that times out followed by any
    fallback flag: the text of the timeout is taken for its output. *)
Lemma failed_exit_is_not_retried :
  ~ retries_after_failed_exit failing_exit_world "widget" "--version" None
  /\ ~ retries_after_failed_exit timeout_world "widget" "--version" None
  /\ check_command "widget" "--version" None failing_exit_world
     = (Ret (true, None, Some "/usr/local/bin/widget"), [["widget"; "--version"]])
  /\ check_command "widget" "--version" None timeout_world
     = (Ret (true, None, Some "/usr/local/bin/widget"), [["widget"; "--version"]]).
Proof.
  repeat split; try (vm_compute; reflexivity).
  - intros H. specialize (H eq_refl eq_refl). vm_compute in H. discriminate H.
  - intros H. specialize (H eq_refl eq_refl). vm_compute in H. discriminate H.
Qed.

(** The probes of a command entry whose executable is on the search path,
    as the code runs them: the fallback loop is entered only after a primary
    probe that raised without a text, and every result is working. *)
Lemma fallback_only_after_silent_failure
  (w : World) (tool_config : ToolConfig) (chk : CheckConfig) (command i n c : string) :
  cfg_check tool_config = Some chk ->
  config_check_type tool_config = "command" ->
  chk_command chk = Some command ->
  cfg_id tool_config = Some i ->
  cfg_name tool_config = Some n ->
  cfg_category tool_config = Some c ->
  truthy_opt (which w command) = true ->
  let version_flag := default "--version" (chk_version_flag chk) in
  let regex := chk_version_regex chk in
  let primary := subprocess_run w [command; version_flag] in
  let found := found_with w i n c (which w command) in
  check_tool tool_config w
  = match raised_text primary with
    | None => (found (probe_output primary) regex, [[command; version_flag]])
    | Some msg =>
        if truthy msg then (found msg regex, [[command; version_flag]])
        else (match loop_output w command fallback_flags with
              | Some output => found output regex
              | None => Ret (Some (found_result i n c None (which w command)))
              end,
              [command; version_flag]
                :: List.map (fun flag => [command; flag])
                     (flags_tried w command fallback_flags))
    end
  /\ (forall r, value (check_tool tool_config) w = Ret (Some r) -> working r = true)
  /\ (raised_text primary = Some "" ->
      (forall flag, In flag fallback_flags ->
                    probe_output (subprocess_run w [command; flag]) = "") ->
      value (check_tool tool_config) w
      = Ret (Some (found_result i n c None (which w command)))).
Proof.
  intros Hchk Hty Hcmd Hi Hn Hc Hw version_flag regex primary found.
  pose proof (command_entry_found w tool_config chk command i n c
                Hchk Hty Hcmd Hi Hn Hc Hw) as E.
  fold version_flag regex in E.
  assert (S : check_tool tool_config w
              = match raised_text primary with
                | None => (found (probe_output primary) regex, [[command; version_flag]])
                | Some msg =>
                    if truthy msg then (found msg regex, [[command; version_flag]])
                    else (match loop_output w command fallback_flags with
                          | Some output => found output regex
                          | None => Ret (Some (found_result i n c None (which w command)))
                          end,
                          [command; version_flag]
                            :: List.map (fun flag => [command; flag])
                                 (flags_tried w command fallback_flags))
                end).
  { rewrite E, (check_command_spec w command version_flag regex Hw).
    fold primary. unfold found, found_with, with_version.
    destruct (raised_text primary) as [msg|].
    - destruct (truthy msg).
      + now destruct (value (extract_version msg regex) w).
      + destruct (loop_output w command fallback_flags) as [output|]; [|reflexivity].
        now destruct (value (extract_version output regex) w).
    - now destruct (value (extract_version (probe_output primary) regex) w). }
  split; [exact S|]. split.
  - intros r. unfold value. rewrite E.
    destruct (check_command _ _ _ w) as [[[[e ver] cmd_path]|e] l]; simpl; [|discriminate].
    now intros [= <-].
  - intros Hsilent Hquiet. unfold value. rewrite S, Hsilent. cbn [truthy fst].
    destruct (loop_output w command fallback_flags) as [output|] eqn:L; [|reflexivity].
    apply loop_output_origin in L as (flag & Hin & ->). rewrite (Hquiet flag Hin).
    reflexivity.
Qed.

Lemma fallback_only_after_silent_failure_witness :
  check_tool widget_config silent_world
  = (Ret (Some (found_result "widget" "Widget" "required" None
                  (Some "/usr/local/bin/widget"))),
     [["widget"; "--version"]; ["widget"; "-v"]; ["widget"; "version"];
      ["widget"; "-version"]; ["widget"; "--version"]]).
Proof.
  refine (eq_trans
    (proj1 (fallback_only_after_silent_failure silent_world widget_config
              {| chk_type := Some "command"; chk_function := None;
                 chk_command := Some "widget"; chk_version_flag := None;
                 chk_version_regex := None; chk_paths := None |}
              "widget" "widget" "Widget" "required" _ _ _ _ _ _ _)) _);
    reflexivity.
Defined.

(** * Further properties of the checker *)

(** ** The aggregator *)

Lemma filter_length_le {A : Type} (p : A -> bool) (l : list A) :
  List.length (List.filter p l) <= List.length l.
Proof.
  induction l as [|a l IH]; simpl; [lia|]. destruct (p a); simpl; lia.
Qed.

Lemma filter_disjoint_length {A : Type} (p q : A -> bool) (l : list A) :
  (forall a, p a = true -> q a = false) ->
  List.length (List.filter p l) + List.length (List.filter q l) <= List.length l.
Proof.
  intros D. induction l as [|a l IH]; simpl; [lia|].
  destruct (p a) eqn:P; [rewrite (D a P)|destruct (q a)]; simpl; lia.
Qed.

Lemma forallb_count {A : Type} (p : A -> bool) (l : list A) :
  forallb p l = true <-> List.length (List.filter p l) = List.length l.
Proof.
  induction l as [|a l IH]; simpl; [tauto|].
  pose proof (filter_length_le p l). destruct (p a); simpl.
  - rewrite IH. split; lia.
  - split; [discriminate|lia].
Qed.

Lemma missing_count cat results :
  List.length (List.filter (is_missing cat) results)
  = List.length (in_category cat results) - count_working (in_category cat results).
Proof.
  unfold in_category, count_working, is_missing.
  induction results as [|r results IH]; [reflexivity|]. simpl.
  pose proof (filter_length_le working
                (List.filter (fun r => String.eqb (category r) cat) results)).
  destruct (String.eqb (category r) cat); simpl; [|exact IH].
  destruct (working r); simpl; lia.
Qed.

Lemma run_checks_report w tool_configs report :
  value (run_checks tool_configs) w = Ret report ->
  report = report_of (tools report).
Proof.
  unfold run_checks. intros H. invert_value. now subst report.
Qed.

(** X1. The counts of a summary are consistent: no more tools are present
    than counted, in either category; the two categories together count at
    most the results there are; and [all_required_present] says exactly that
    every counted required tool is present. *)
Theorem summary_counts_consistent (results : list ToolResult) :
  let s := summarize results in
  required_present s <= required_count s
  /\ optional_present s <= optional_count s
  /\ required_count s + optional_count s <= List.length results
  /\ (all_required_present s = true <-> required_present s = required_count s).
Proof.
  unfold summarize, count_working, in_category. simpl. repeat split.
  - apply filter_length_le.
  - apply filter_length_le.
  - apply filter_disjoint_length. intros r E%String.eqb_eq. now rewrite E.
  - now intros ?%forallb_count.
  - now intros ?%forallb_count.
Qed.

(** X2. There is one recommendation for each counted tool that is not
    present: their number is the number of required tools missing plus the
    number of optional tools missing. *)
Theorem recommendations_count (results : list ToolResult) :
  let s := summarize results in
  List.length (generate_recommendations results)
  = (required_count s - required_present s) + (optional_count s - optional_present s).
Proof.
  simpl. rewrite generate_recommendations_spec, length_app, !length_map, !missing_count.
  reflexivity.
Qed.

(** X3. [all_required_present] holds exactly when no recommendation is
    critical. *)
Theorem all_required_present_iff_no_critical (results : list ToolResult) :
  all_required_present (summarize results) = true
  <-> List.filter is_critical (generate_recommendations results) = [].
Proof.
  rewrite summarize_all_required, generate_recommendations_spec.
  rewrite List.filter_app.
  assert (L : forall l, List.filter is_critical (List.map low_recommendation l) = []).
  { induction l; [reflexivity|exact IHl]. }
  assert (C : forall l, List.filter is_critical (List.map critical_recommendation l)
                        = List.map critical_recommendation l).
  { induction l; [reflexivity|]. simpl. now rewrite IHl. }
  rewrite L, C, app_nil_r. split.
  - intros H. destruct (List.filter (is_missing "required") results) as [|r l] eqn:E;
      [reflexivity|].
    assert (I : In r (List.filter (is_missing "required") results)) by (rewrite E; now left).
    apply filter_In in I as [I M]. unfold is_missing in M.
    apply andb_prop in M as [M1%String.eqb_eq M2]. rewrite (H r I M1) in M2. discriminate.
  - intros H r I E. destruct (working r) eqn:W; [reflexivity|].
    assert (I' : In r (List.filter (is_missing "required") results)).
    { apply filter_In. split; [exact I|]. unfold is_missing. rewrite E, W. reflexivity. }
    destruct (List.filter (is_missing "required") results); [destruct I'|discriminate H].
Qed.

Lemma filter_filter_implied {A : Type} (p q : A -> bool) (l : list A) :
  (forall a, p a = true -> q a = true) ->
  List.filter p (List.filter q l) = List.filter p l.
Proof.
  intros I. induction l as [|a l IH]; [reflexivity|]. simpl.
  destruct (q a) eqn:Q; simpl; [now rewrite IH|].
  destruct (p a) eqn:P; [|exact IH]. rewrite (I a P) in Q. discriminate.
Qed.

(** X4. Results of any other category than [required] and [optional]
    (the framework results, which are [project-specific], among them) leave
    no trace in the summary or in the recommendations, working or not. *)
Theorem uncounted_categories_are_ignored (results : list ToolResult) :
  summarize (List.filter counted results) = summarize results
  /\ generate_recommendations (List.filter counted results)
     = generate_recommendations results.
Proof.
  assert (R : forall r : ToolResult,
             String.eqb (category r) "required" = true -> counted r = true)
    by (intros r E; unfold counted; now rewrite E).
  assert (O : forall r : ToolResult,
             String.eqb (category r) "optional" = true -> counted r = true)
    by (intros r E; unfold counted; rewrite E; apply orb_true_r).
  split.
  - unfold summarize, in_category. now rewrite !filter_filter_implied.
  - rewrite !generate_recommendations_spec.
    rewrite !filter_filter_implied; [reflexivity|..];
      intros r [E _]%andb_prop; auto.
Qed.

(** X5. The recommendations are the critical ones followed by the low
    ones; each group follows the order of the results, and a batch that is
    the concatenation of two gives the interleaving of their groups. *)
Theorem recommendations_grouped_by_priority (results more : list ToolResult) :
  let critical := List.map critical_recommendation
                    (List.filter (is_missing "required") results) in
  let low := List.map low_recommendation
               (List.filter (is_missing "optional") results) in
  generate_recommendations results = (critical ++ low)%list
  /\ Forall (fun rec => priority rec = "critical") critical
  /\ Forall (fun rec => priority rec = "low") low
  /\ generate_recommendations (results ++ more)
     = (critical
        ++ List.filter is_critical (generate_recommendations more)
        ++ low
        ++ List.filter (fun rec => negb (is_critical rec))
             (generate_recommendations more))%list.
Proof.
  simpl. split; [apply generate_recommendations_spec|].
  split; [apply List.Forall_forall; now intros rec (r & <- & _)%in_map_iff|].
  split; [apply List.Forall_forall; now intros rec (r & <- & _)%in_map_iff|].
  rewrite !generate_recommendations_spec, !List.filter_app, !List.map_app.
  assert (L : forall l, List.filter is_critical (List.map low_recommendation l) = []).
  { induction l; [reflexivity|exact IHl]. }
  assert (C : forall l, List.filter is_critical (List.map critical_recommendation l)
                        = List.map critical_recommendation l).
  { induction l; [reflexivity|]. simpl. now rewrite IHl. }
  assert (L' : forall l, List.filter (fun rec => negb (is_critical rec))
                           (List.map low_recommendation l)
                         = List.map low_recommendation l).
  { induction l; [reflexivity|]. simpl. now rewrite IHl. }
  assert (C' : forall l, List.filter (fun rec => negb (is_critical rec))
                           (List.map critical_recommendation l) = []).
  { induction l; [reflexivity|exact IHl]. }
  rewrite L, C, L', C', app_nil_r. simpl. now rewrite <- !app_assoc.
Qed.

Lemma exit_status_spec (results : list ToolResult) (exit_on_missing : bool) :
  (exit_status exit_on_missing (report_of results) = 1%Z
   <-> exit_on_missing = true
       /\ exists r, In r results /\ category r = "required" /\ working r = false)
  /\ (exit_status exit_on_missing (report_of results) = 1%Z
      \/ exit_status exit_on_missing (report_of results) = 0%Z)
  /\ exit_status false (report_of results) = 0%Z.
Proof.
  unfold exit_status, report_of. simpl.
  destruct (forallb working (in_category "required" results)) eqn:F.
  - rewrite andb_false_r. split; [|auto]. split; [discriminate|].
    intros (_ & r & I & C & W).
    assert (S : all_required_present (summarize results) = true) by exact F.
    rewrite summarize_all_required in S. rewrite (S r I C) in W. discriminate.
  - rewrite andb_true_r. split; [|destruct exit_on_missing; auto]. split.
    + destruct exit_on_missing; [|discriminate]. intros _. split; [reflexivity|].
      destruct (existsb (fun r => negb (working r)) (in_category "required" results)) eqn:E.
      * apply existsb_exists in E as (r & [I C]%filter_In & W).
        exists r. apply String.eqb_eq in C. now destruct (working r).
      * exfalso. apply Bool.not_true_iff_false in F. apply F, forallb_forall.
        intros r I. destruct (working r) eqn:W; [reflexivity|].
        apply Bool.not_true_iff_false in E. exfalso. apply E, existsb_exists.
        exists r. now rewrite W.
    + now intros [-> _].
Qed.

(** ** The probe engine *)

Lemma check_command_absent w command version_flag regex :
  truthy_opt (which w command) = false ->
  check_command command version_flag regex w = (Ret (false, None, None), []).
Proof.
  intros Hw. unfold check_command, mbind, M_bind, ask. now rewrite Hw.
Qed.

(** X7. A command entry whose executable is not on the search path yields,
    without spawning any process, a [not_found] result that is neither
    installed nor working and has no version and no path. Its installation
    hint is the primary entry of the descriptor's installation section, and
    its one issue, an error for a required tool and a warning for any other,
    offers the command of that hint as its fix. *)
Theorem absent_command_is_not_found
  (w : World) (tool_config : ToolConfig) (chk : CheckConfig) (command i n c : string) :
  cfg_check tool_config = Some chk ->
  config_check_type tool_config = "command" ->
  chk_command chk = Some command ->
  cfg_id tool_config = Some i ->
  cfg_name tool_config = Some n ->
  cfg_category tool_config = Some c ->
  truthy_opt (which w command) = false ->
  exists r,
    check_tool tool_config w = (Ret (Some r), [])
    /\ id r = i /\ name r = n /\ category r = c
    /\ status r = "not_found" /\ installed r = false /\ working r = false
    /\ version r = None /\ path r = None
    /\ installation r = primary_hint tool_config
    /\ issues r
       = [issue (if String.eqb c "required" then "error" else "warning")
            (n ++ " not found")
            match primary_hint tool_config with
            | Some h => if decide (h = ∅) then None else h !! "command"
            | None => None
            end].
Proof.
  intros Hchk Hty Hcmd Hi Hn Hc Hw.
  unfold check_tool, primary_hint. rewrite Hty, Hchk, Hi, Hn, Hc.
  change (String.eqb "command" "custom") with false.
  change (String.eqb "command" "command") with true. cbv iota.
  unfold mbind, M_bind, item, mret, M_ret. rewrite Hcmd. cbv beta iota.
  rewrite (check_command_absent w command _ _ Hw). cbv beta iota. cbn [negb].
  eexists. split; [reflexivity|]. repeat split.
Qed.

Lemma absent_command_is_not_found_witness :
  exists r,
    check_tool widget_with_hint bare_world = (Ret (Some r), [])
    /\ status r = "not_found"
    /\ issues r = [issue "error" "Widget not found" (Some "brew install widget")].
Proof.
  destruct (absent_command_is_not_found bare_world widget_with_hint
              {| chk_type := Some "command"; chk_function := None;
                 chk_command := Some "widget"; chk_version_flag := None;
                 chk_version_regex := None; chk_paths := None |}
              "widget" "widget" "Widget" "required"
              eq_refl eq_refl eq_refl eq_refl eq_refl eq_refl eq_refl)
    as (r & E & _ & _ & _ & S & _ & _ & _ & _ & _ & I).
  exists r. split; [exact E|]. split; [exact S|]. rewrite I. vm_compute. reflexivity.
Defined.

(** X8. An entry that lacks the field its strategy reads raises a KeyError
    naming that field before any probe is made: [check] when the entry has
    no check section (its tag then defaults to [command]), and [function],
    [command] or [paths] when the section lacks what a custom, command,
    directory or framework check needs. *)
Theorem missing_field_raises_key_error (w : World) (tool_config : ToolConfig) :
  (cfg_check tool_config = None ->
   check_tool tool_config w = (Raise (KeyError "check"), []))
  /\ (forall chk, cfg_check tool_config = Some chk ->
        (chk_type chk = Some "custom" -> chk_function chk = None ->
         check_tool tool_config w = (Raise (KeyError "function"), []))
        /\ (default "command" (chk_type chk) = "command" -> chk_command chk = None ->
            check_tool tool_config w = (Raise (KeyError "command"), []))
        /\ (chk_type chk = Some "directory" -> chk_paths chk = None ->
            check_tool tool_config w = (Raise (KeyError "paths"), []))
        /\ (chk_type chk = Some "framework" -> chk_paths chk = None ->
            forall n, cfg_name tool_config = Some n ->
            check_tool tool_config w = (Raise (KeyError "paths"), []))).
Proof.
  split.
  - intros H. unfold check_tool, config_check_type. now rewrite H.
  - intros chk H. unfold check_tool, config_check_type. rewrite H. repeat split.
    + intros -> F. simpl. unfold mbind, M_bind. simpl. now rewrite F.
    + intros -> C. simpl. unfold mbind, M_bind. simpl. now rewrite C.
    + intros -> P. simpl. unfold mbind, M_bind. simpl. now rewrite P.
    + intros -> P n N. simpl. rewrite N. unfold mbind, M_bind. simpl. now rewrite P.
Qed.

Lemma missing_field_raises_key_error_witness :
  check_tool nameless_config bare_world = (Raise (KeyError "check"), []).
Proof.
  apply (proj1 (missing_field_raises_key_error bare_world nameless_config)).
  reflexivity.
Defined.

(** ** Batches *)

Lemma check_all_cons_spec w tool rest :
  check_all (tool :: rest) w
  = match check_tool tool w with
    | (Ret (Some r), l1) =>
        match check_all rest w with
        | (Ret rs, l2) => (Ret (r :: rs), (l1 ++ l2)%list)
        | (Raise e, l2) => (Raise e, (l1 ++ l2)%list)
        end
    | (Ret None, l1) =>
        (Raise (TypeError "asdict() should be called on dataclass instances"), l1)
    | (Raise e, l1) => (Raise e, l1)
    end.
Proof.
  cbn [check_all]. unfold mbind, M_bind, asdict, mret, M_ret, raise.
  destruct (check_tool tool w) as [[[r|]|e] l1]; try reflexivity.
  - destruct (check_all rest w) as [[rs|e] l2]; simpl; now rewrite ?app_nil_r.
  - simpl. now rewrite app_nil_r.
Qed.

(** X9. A batch has no handler around the check of an entry: the first
    entry whose check raises, or returns nothing, ends [run_checks] with that
    exception (a TypeError in the second case), no report is produced, and
    the entries after it are never probed. *)
Theorem first_fault_ends_the_batch
  (w : World) (before after : list ToolConfig) (tool : ToolConfig)
  (results : list ToolResult) (e : exn) :
  value (check_all before) w = Ret results ->
  fault (value (check_tool tool) w) = Some e ->
  value (run_checks (before ++ tool :: after)) w = Raise e
  /\ spawned (run_checks (before ++ tool :: after)) w
     = (spawned (check_all before) w ++ spawned (check_tool tool) w)%list.
Proof.
  intros Hb Hf.
  assert (E : check_all (before ++ tool :: after) w
              = (Raise e, (spawned (check_all before) w ++ spawned (check_tool tool) w)%list)).
  { revert results Hb. induction before as [|t before IH]; intros results Hb.
    - simpl app. rewrite check_all_cons_spec. unfold value, spawned in *.
      destruct (check_tool tool w) as [[[r|]|e'] l1]; simpl in *; congruence.
    - rewrite <- app_comm_cons, check_all_cons_spec.
      unfold value, spawned in Hb |- *. rewrite check_all_cons_spec in Hb |- *.
      destruct (check_tool t w) as [[[r|]|e'] l1]; simpl in Hb; try discriminate Hb.
      unfold value, spawned in IH.
      destruct (check_all before w) as [[rs|e'] l2]; simpl in Hb; [|discriminate Hb].
      rewrite (IH rs eq_refl). simpl. now rewrite app_assoc. }
  unfold run_checks, value, spawned, mbind, M_bind. now rewrite E.
Qed.

Lemma first_fault_ends_the_batch_witness :
  value (run_checks [sdk_config; nameless_config; xcode_config]) bare_world
  = Raise (KeyError "check")
  /\ spawned (run_checks [sdk_config; nameless_config; xcode_config]) bare_world = [].
Proof.
  apply (first_fault_ends_the_batch bare_world [sdk_config] [xcode_config]
           nameless_config [sdk_missing] (KeyError "check")); reflexivity.
Defined.

(** X10. [run_checks] returns a report exactly when the check of every
    entry returns a result, and the report then holds one result for each
    entry, in the order of the configuration. *)
Theorem report_iff_every_check_returns (w : World) (tool_configs : list ToolConfig) :
  ((exists report, value (run_checks tool_configs) w = Ret report)
   <-> Forall (fun tool => exists r, value (check_tool tool) w = Ret (Some r)) tool_configs)
  /\ (forall report,
        value (run_checks tool_configs) w = Ret report ->
        List.length (tools report) = List.length tool_configs
        /\ Forall2 (fun tool r => value (check_tool tool) w = Ret (Some r))
             tool_configs (tools report)).
Proof.
  assert (R : forall results, value (check_all tool_configs) w = Ret results ->
                              value (run_checks tool_configs) w = Ret (report_of results)).
  { intros results H. unfold run_checks. now rewrite (value_bind _ _ _ _ H). }
  split; [split|].
  - intros [report H]. unfold run_checks in H. invert_value.
    match goal with H : value (check_all _) _ = _ |- _ =>
      apply check_all_results in H; clear - H; induction H; constructor; eauto end.
  - intros H.
    assert (exists results, value (check_all tool_configs) w = Ret results) as [results E].
    { clear R. induction H as [|tool rest [r Hr] _ [rs IH]].
      - now exists [].
      - exists (r :: rs). now rewrite value_check_all_cons, Hr, IH. }
    eexists. apply R. exact E.
  - intros report H. unfold run_checks in H. invert_value. subst report. simpl.
    match goal with H : value (check_all _) _ = _ |- _ =>
      apply check_all_results in H; split; [|exact H] end.
    symmetry. eapply Forall2_length. eassumption.
Qed.

Lemma report_iff_every_check_returns_witness :
  List.length (tools bare_report) = 2
  /\ Forall2 (fun tool r => value (check_tool tool) bare_world = Ret (Some r))
       [xcode_config; sdk_config] (tools bare_report).
Proof.
  apply (proj2 (report_iff_every_check_returns bare_world [xcode_config; sdk_config])
           bare_report).
  vm_compute; reflexivity.
Defined.

(** ** The processes a check spawns *)

Section Spawning.
Context {A B : Type}.

Lemma at_most_weaken (n n' : nat) (m : M A) :
  n <= n' -> spawns_at_most n m -> spawns_at_most n' m.
Proof. intros L H w. specialize (H w). lia. Qed.

Lemma at_most_ret (n : nat) (a : A) : spawns_at_most n (mret a).
Proof. intros w. unfold spawned. simpl. lia. Qed.

Lemma at_most_raise (n : nat) (e : exn) : spawns_at_most n (raise e : M A).
Proof. intros w. unfold spawned. simpl. lia. Qed.

Lemma at_most_lift (n : nat) (r : pyres A) : spawns_at_most n (lift r).
Proof. intros w. unfold spawned. simpl. lia. Qed.

Lemma at_most_ask (n : nat) (f : World -> A) : spawns_at_most n (ask f).
Proof. intros w. unfold spawned. simpl. lia. Qed.

Lemma at_most_item (n : nat) (key : string) (o : option A) :
  spawns_at_most n (item key o).
Proof. destruct o; [apply at_most_ret|apply at_most_raise]. Qed.

Lemma at_most_bind (a b : nat) (m : M A) (k : A -> M B) :
  spawns_at_most a m -> (forall x, spawns_at_most b (k x)) ->
  spawns_at_most (a + b) (m ≫= k).
Proof.
  intros Hm Hk w. rewrite spawned_bind_eq, length_app. specialize (Hm w).
  destruct (value m w) as [x|e]; [specialize (Hk x w)|]; simpl; lia.
Qed.

Lemma at_most_fmap (n : nat) (f : A -> B) (m : M A) :
  spawns_at_most n m -> spawns_at_most n (f <$> m).
Proof.
  intros H w. specialize (H w). unfold spawned, fmap, M_fmap in *.
  now destruct (m w) as [[a|e] l].
Qed.

End Spawning.

Lemma at_most_run_command (n : nat) (command : argv) (check_error : bool) :
  spawns_at_most (S n) (run_command command check_error).
Proof. intros w. unfold spawned. rewrite run_command_spec. simpl. lia. Qed.

Lemma at_most_extract_version (n : nat) output regex :
  spawns_at_most n (extract_version output regex).
Proof. intros w. unfold spawned. rewrite extract_version_pure. simpl. lia. Qed.

Lemma at_most_first_existing (n : nat) paths : spawns_at_most n (first_existing paths).
Proof. intros w. unfold spawned. rewrite first_existing_spec. simpl. lia. Qed.

Lemma at_most_path_probe (n : nat) p : spawns_at_most n (path_probe p).
Proof. intros w. unfold spawned. simpl. lia. Qed.

Lemma at_most_try_flags command flags :
  spawns_at_most (List.length flags) (try_flags command flags).
Proof.
  intros w. unfold spawned. rewrite try_flags_spec. simpl. rewrite length_map.
  induction flags as [|flag rest IH]; simpl; [lia|].
  destruct (settles _); simpl; lia.
Qed.

(** Bound a sequence by the bound of its head plus that of what follows. *)
Ltac bound_step a b :=
  apply (at_most_bind a b); [|intros; repeat case_match].

Ltac bound_leaf :=
  first [ apply at_most_ret | apply at_most_raise | apply at_most_lift
        | apply at_most_ask | apply at_most_item | apply at_most_run_command
        | apply at_most_extract_version | apply at_most_first_existing
        | apply at_most_path_probe ].

Lemma at_most_check_command command version_flag regex :
  spawns_at_most 5 (check_command command version_flag regex).
Proof.
  unfold check_command.
  bound_step 0 5; [bound_leaf|..]; try bound_leaf.
  bound_step 1 4; [bound_leaf|..].
  all: try (bound_step 0 4; [bound_leaf|..]; bound_leaf).
  bound_step 4 0; [apply at_most_try_flags|..]; try bound_leaf.
  bound_step 0 0; bound_leaf.
Qed.

Lemma at_most_check_xcode : spawns_at_most 3 check_xcode.
Proof.
  unfold check_xcode.
  bound_step 1 2; [bound_leaf|..].
  all: bound_step 0 2; [bound_leaf|..]; try bound_leaf.
  all: bound_step 1 1; [bound_leaf|..]; try bound_leaf.
  all: bound_step 0 1; [bound_leaf|..].
  all: bound_step 1 0; [bound_leaf|..]; bound_leaf.
Qed.

Lemma at_most_check_xcode_clt : spawns_at_most 1 check_xcode_clt.
Proof.
  unfold check_xcode_clt. bound_step 1 0; [bound_leaf|..]; bound_leaf.
Qed.

Lemma at_most_check_xcodebuild : spawns_at_most 1 check_xcodebuild.
Proof.
  unfold check_xcodebuild. bound_step 1 0; [bound_leaf|..].
  all: bound_step 0 0; [bound_leaf|..]; bound_leaf.
Qed.

Lemma at_most_check_framework n paths : spawns_at_most 0 (check_framework n paths).
Proof.
  unfold check_framework. bound_step 0 0; [bound_leaf|..]; bound_leaf.
Qed.

Lemma at_most_unknown_check_type tool_config ty :
  spawns_at_most 0 (unknown_check_type tool_config ty).
Proof.
  unfold unknown_check_type. do 3 (bound_step 0 0; [bound_leaf|..]). bound_leaf.
Qed.

Lemma at_most_check_tool tool_config : spawns_at_most 5 (check_tool tool_config).
Proof.
  unfold check_tool.
  destruct (String.eqb _ "custom");
    [|destruct (String.eqb _ "command");
      [|destruct (String.eqb _ "directory"); [|destruct (String.eqb _ "framework")]]].
  - bound_step 0 5; [bound_leaf|..]. bound_step 0 5; [bound_leaf|..].
    + apply (at_most_weaken 3); [lia|apply at_most_check_xcode].
    + apply (at_most_weaken 1); [lia|apply at_most_fmap, at_most_check_xcode_clt].
    + apply (at_most_weaken 1); [lia|apply at_most_fmap, at_most_check_xcodebuild].
    + apply (at_most_weaken 0); [lia|apply at_most_unknown_check_type].
  - bound_step 0 5; [bound_leaf|..].
    all: bound_step 0 5; [bound_leaf|..].
    all: bound_step 5 0; [apply at_most_check_command|..].
    all: do 3 (bound_step 0 0; [bound_leaf|..]); bound_leaf.
  - bound_step 0 5; [bound_leaf|..]. bound_step 0 5; [bound_leaf|..].
    bound_step 0 5; [bound_leaf|..].
    all: do 3 (bound_step 0 5; [bound_leaf|..]); bound_leaf.
  - bound_step 0 5; [bound_leaf|..]. bound_step 0 5; [bound_leaf|..].
    bound_step 0 5; [bound_leaf|..].
    apply (at_most_weaken 0); [lia|apply at_most_fmap, at_most_check_framework].
  - apply (at_most_weaken 0); [lia|apply at_most_unknown_check_type].
Qed.

(** X11. The check of one entry spawns at most five processes (the primary
    version probe and the four fallback flags), whatever the entry and the
    machine and whether the check returns or raises; a whole run spawns at
    most five for each entry of the configuration. *)
Theorem at_most_five_processes_per_entry (w : World) (tool_configs : list ToolConfig) :
  (forall tool, List.length (spawned (check_tool tool) w) <= 5)
  /\ List.length (spawned (run_checks tool_configs) w) <= 5 * List.length tool_configs.
Proof.
  split; [intros tool; apply at_most_check_tool|].
  assert (C : spawns_at_most (5 * List.length tool_configs) (check_all tool_configs)).
  { induction tool_configs as [|tool rest IH]; [apply at_most_ret|].
    cbn [check_all]. apply (at_most_weaken (5 + (0 + (5 * List.length rest + 0))));
      [simpl; lia|].
    apply at_most_bind; [apply at_most_check_tool|intros o].
    apply at_most_bind; [destruct o; [apply at_most_ret|apply at_most_raise]|intros d].
    apply at_most_bind; [exact IH|intros ds]. apply at_most_ret. }
  unfold run_checks.
  apply (at_most_weaken (5 * List.length tool_configs + 0)); [lia|].
  apply at_most_bind; [exact C|intros; apply at_most_ret].
Qed.

(** X12. Only the command strategy and the custom routines run anything:
    the check of an entry with any other tag (directory, framework or an
    unknown one) spawns no process, whether it returns or raises. *)
Theorem path_strategies_spawn_nothing (w : World) (tool_config : ToolConfig) :
  config_check_type tool_config <> "custom" ->
  config_check_type tool_config <> "command" ->
  spawned (check_tool tool_config) w = [].
Proof.
  intros N1%String.eqb_neq N2%String.eqb_neq.
  assert (Z : spawns_at_most 0 (check_tool tool_config)).
  { unfold check_tool. rewrite N1, N2.
    destruct (String.eqb _ "directory"); [|destruct (String.eqb _ "framework")].
    - do 6 (bound_step 0 0; [bound_leaf|..]); bound_leaf.
    - do 3 (bound_step 0 0; [bound_leaf|..]).
      apply at_most_fmap, at_most_check_framework.
    - apply at_most_unknown_check_type. }
  specialize (Z w). now destruct (spawned (check_tool tool_config) w).
Qed.

Lemma path_strategies_spawn_nothing_witness :
  spawned (check_tool usr_config) usr_world = [].
Proof.
  apply (path_strategies_spawn_nothing usr_world usr_config); discriminate.
Defined.

(** ** The Xcode routines *)

Lemma value_run_command w command check_error :
  value (run_command command check_error) w
  = Ret (reported check_error (subprocess_run w command)).
Proof.
  unfold value. rewrite run_command_spec. simpl.
  now destruct (subprocess_run w command).
Qed.

Lemma value_ask {A : Type} (f : World -> A) w : value (ask f) w = Ret (f w).
Proof. reflexivity. Qed.

Lemma reported_select_path w :
  (let '(success, stdout, _) := reported false (subprocess_run w ["xcode-select"; "-p"]) in
   if success then Some (PyStr.strip stdout) else None)
  = xcode_select_path w.
Proof.
  unfold xcode_select_path. now destruct (subprocess_run w ["xcode-select"; "-p"]).
Qed.

Lemma reported_exits_zero p : fst (fst (reported true p)) = exits_zero p.
Proof. now destruct p. Qed.

(** X13. [check_xcode] returns nothing in exactly one state of the machine:
    [/Applications/Xcode.app] exists, the selected developer directory lies
    inside an [Xcode.app], and [xcodebuild -version] does not complete with
    exit status 0. *)
Theorem check_xcode_returns_none_iff (w : World) :
  value check_xcode w = Ret None
  <-> path_exists w "/Applications/Xcode.app" = Ret true
      /\ xcode_selected w = true
      /\ exits_zero (subprocess_run w ["xcodebuild"; "-version"]) = false.
Proof.
  unfold xcode_selected. rewrite <- reported_select_path, <- reported_exits_zero.
  unfold check_xcode. rewrite value_bind_eq, value_run_command.
  destruct (reported false (subprocess_run w ["xcode-select"; "-p"]))
    as [[success stdout] stderr].
  cbv beta iota. rewrite value_bind_eq, value_path_probe.
  destruct (path_exists w "/Applications/Xcode.app") as [[|]|e]; cbv beta iota;
    [| |split; [discriminate|intros ([=] & _)]].
  - destruct (truthy_opt _ && PyStr.contains "Xcode.app" _); cbv beta iota.
    + rewrite value_bind_eq, value_run_command.
      destruct (reported true (subprocess_run w ["xcodebuild"; "-version"]))
        as [[ok out] err].
      cbv beta iota. destruct ok; cbn [fst].
      * rewrite value_bind_eq.
        destruct (value (extract_version out None) w) as [ver|e];
          [|split; [discriminate|intros (_ & _ & [=])]].
        rewrite value_bind_eq, value_run_command.
        destruct (reported true _) as [[first_launch ?] ?]. cbv beta iota.
        split; [discriminate|intros (_ & _ & [=])].
      * split; [now intros _|reflexivity].
    + split; [discriminate|intros (_ & [=] & _)].
  - destruct (truthy_opt _ && PyStr.contains "CommandLineTools" _);
      (split; [discriminate|intros ([=] & _)]).
Qed.

Lemma value_run_command_inv w command check_error t :
  value (run_command command check_error) w = Ret t ->
  t = reported check_error (subprocess_run w command).
Proof. rewrite value_run_command. now intros [= <-]. Qed.

(** X14. Every result of [check_xcode] is the result for Xcode itself
    (id [xcode], category [required], check type [xcode_special]). It is
    working exactly when its status is [found] or [warning], installed
    exactly when its status is not [not_found], and free of issues exactly
    when its status is [found]. A result that is not working always carries
    an installation hint, so that its critical recommendation has an
    action. *)
Theorem check_xcode_result_shape (w : World) (r : ToolResult) :
  value check_xcode w = Ret (Some r) ->
  id r = "xcode" /\ category r = "required" /\ check_type r = "xcode_special"
  /\ (status r = "found" \/ status r = "warning" \/ status r = "error"
      \/ status r = "not_found")
  /\ (working r = true <-> status r = "found" \/ status r = "warning")
  /\ (installed r = false <-> status r = "not_found")
  /\ (issues r = [] <-> status r = "found")
  /\ (working r = false ->
      truthy_opt (action (critical_recommendation r)) = true).
Proof.
  unfold check_xcode. intros H. invert_value; simplify_eq/=.
  all: repeat match goal with |- context [negb ?b] => is_var b; destruct b end.
  all: cbn [negb status working installed issues id category check_type].
  all: repeat split; try discriminate; auto.
  all: intros [|]; discriminate.
Qed.

Lemma check_xcode_result_shape_witness :
  installed xcode_missing = false
  /\ truthy_opt (action (critical_recommendation xcode_missing)) = true.
Proof.
  destruct (check_xcode_result_shape bare_world xcode_missing eq_refl)
    as (_ & _ & _ & _ & _ & I & _ & A).
  split; [apply I; reflexivity|apply A; reflexivity].
Defined.



Lemma reported_stderr check_error p : snd (reported check_error p) = stderr_of p.
Proof. now destruct p. Qed.

Lemma spawned_run_command_then {A : Type} command check_error
  (k : bool * string * string -> M A) w :
  (forall t, spawns_at_most 0 (k t)) ->
  spawned (run_command command check_error ≫= k) w = [command].
Proof.
  intros H. rewrite spawned_bind_eq, value_run_command.
  unfold spawned at 1. rewrite run_command_spec. cbn [snd].
  specialize (H (reported check_error (subprocess_run w command)) w).
  now destruct (spawned _ w).
Qed.

(** X15. [check_xcodebuild] runs [xcodebuild -version] once and nothing
    else. Its result is [found] and working when that process completes
    with exit status 0 and an [error] that is not working otherwise, never
    [not_found], even when [xcodebuild] is not on the search path (the
    result is then not installed either); a failing run always yields a
    result, and that result carries an installation hint exactly when the
    error text of the run contains "requires Xcode". *)
Theorem check_xcodebuild_outcome (w : World) :
  let p := subprocess_run w ["xcodebuild"; "-version"] in
  spawned check_xcodebuild w = [["xcodebuild"; "-version"]]
  /\ (forall r, value check_xcodebuild w = Ret r ->
        status r = (if exits_zero p then "found" else "error")
        /\ status r <> "not_found"
        /\ working r = exits_zero p
        /\ (exits_zero p = false ->
            installed r = match which w "xcodebuild" with
                          | Some _ => true
                          | None => false
                          end
            /\ (is_Some (installation r)
                <-> PyStr.contains "requires Xcode" (stderr_of p) = true)))
  /\ (exits_zero p = false -> exists r, value check_xcodebuild w = Ret r).
Proof.
  cbv zeta. split.
  { unfold check_xcodebuild. apply spawned_run_command_then.
    intros [[ok out] err]. destruct ok; [|destruct (PyStr.contains _ _)].
    all: bound_step 0 0; [bound_leaf|..]; bound_leaf. }
  rewrite <- reported_exits_zero, <- (reported_stderr true).
  unfold check_xcodebuild. rewrite value_bind_eq, value_run_command.
  destruct (reported true (subprocess_run w ["xcodebuild"; "-version"]))
    as [[ok out] err].
  cbn [fst snd]. cbv beta iota. destruct ok.
  - rewrite value_bind_eq. split; [|discriminate].
    destruct (value (extract_version out None) w) as [ver|e]; [|discriminate].
    intros r [= <-]. repeat split; discriminate.
  - destruct (PyStr.contains "requires Xcode" err); cbv beta iota;
      rewrite value_bind_eq, value_ask; cbv beta iota; rewrite value_ret.
    + split; [|eauto]. intros r [= <-]. repeat split; eauto; discriminate.
    + split; [|eauto]. intros r [= <-]. repeat split; try discriminate.
      intros [? [=]].
Qed.

Lemma check_xcodebuild_outcome_witness :
  exists r, value check_xcodebuild bare_world = Ret r.
Proof.
  apply (proj2 (proj2 (check_xcodebuild_outcome bare_world))). reflexivity.
Defined.

(** ** Stripping *)

Lemma lstrip_head s c t : PyStr.lstrip s = String c t -> PyStr.is_space c = false.
Proof.
  induction s as [|a s IH]; simpl; [discriminate|].
  destruct (PyStr.is_space a) eqn:E; [exact IH|]. now intros [= <- <-].
Qed.

Lemma lstrip_fixed c t : PyStr.is_space c = false -> PyStr.lstrip (String c t) = String c t.
Proof. intros E. simpl. now rewrite E. Qed.

Lemma rstrip_head c t :
  PyStr.is_space c = false -> exists t', PyStr.rstrip (String c t) = String c t'.
Proof.
  intros E. simpl. destruct (PyStr.rstrip t); [rewrite E|]; eauto.
Qed.

Lemma rstrip_idempotent s : PyStr.rstrip (PyStr.rstrip s) = PyStr.rstrip s.
Proof.
  induction s as [|c s IH]; [reflexivity|]. simpl.
  destruct (PyStr.rstrip s) as [|d t] eqn:E.
  - destruct (PyStr.is_space c) eqn:C; [reflexivity|]. simpl. now rewrite C.
  - cbn [PyStr.rstrip] in IH |- *. fold PyStr.rstrip in IH |- *.
    change (PyStr.rstrip (String c (String d t)))
      with (match PyStr.rstrip (String d t) with
            | EmptyString => if PyStr.is_space c then EmptyString else String c EmptyString
            | u => String c u
            end).
    now rewrite IH.
Qed.

Lemma strip_idempotent s : PyStr.strip (PyStr.strip s) = PyStr.strip s.
Proof.
  unfold PyStr.strip. destruct (PyStr.lstrip s) as [|c t] eqn:E; [reflexivity|].
  apply lstrip_head in E. destruct (rstrip_head c t E) as [t' R].
  rewrite R, (lstrip_fixed c t' E), <- R. apply rstrip_idempotent.
Qed.

(** X16. [check_xcode_clt] always returns a result, after running
    [xcode-select -p] once. The result is [found], installed and working
    exactly when that command could be run and printed something other than
    white space, whatever its exit status; its path is then the printed text
    without the white space around it. *)
Theorem check_xcode_clt_outcome (w : World) :
  exists r,
    check_xcode_clt w = (Ret r, [["xcode-select"; "-p"]])
    /\ working r = truthy_opt (xcode_select_path w)
    /\ installed r = working r
    /\ status r = (if working r then "found" else "not_found")
    /\ path r = (if working r then xcode_select_path w else None)
    /\ (forall p, path r = Some p -> truthy p = true /\ PyStr.strip p = p).
Proof.
  unfold check_xcode_clt, xcode_select_path, mbind, M_bind.
  rewrite run_command_spec.
  destruct (subprocess_run w ["xcode-select"; "-p"]) as [rc out err| | |msg];
    cbv beta iota; cbn [andb truthy_opt].
  1: destruct (truthy (PyStr.strip out)) eqn:T.
  all: eexists; split; [reflexivity|]; cbn [working installed status path].
  all: repeat split; try discriminate.
  all: match goal with E : Some _ = Some _ |- _ => injection E as <- end.
  - exact T.
  - apply strip_idempotent.
Qed.

(** X17. The three Xcode routines agree: on a machine where [check_xcode]
    reports a working Xcode, [check_xcode_clt] reports working command line
    tools at the same path and [check_xcodebuild] reports a working
    [xcodebuild] of the same version. *)
Theorem working_xcode_implies_its_parts (w : World) (r : ToolResult) :
  value check_xcode w = Ret (Some r) ->
  working r = true ->
  (exists clt, value check_xcode_clt w = Ret clt
               /\ working clt = true /\ path clt = path r)
  /\ (exists xb, value check_xcodebuild w = Ret xb
                 /\ working xb = true /\ version xb = version r).
Proof.
  unfold check_xcode. intros H W. invert_value; simplify_eq/=.
  repeat match goal with
         | E : value (run_command _ _) _ = Ret _ |- _ => apply value_run_command_inv in E
         | E : value (ask _) _ = Ret _ |- _ => clear E
         end.
  split.
  - unfold check_xcode_clt. rewrite value_bind_eq, value_run_command.
    destruct (reported false _) as [[ok out] err]. simplify_eq.
    destruct ok; [|discriminate]. simpl in *.
    match goal with E : _ && _ = true |- _ => apply andb_prop in E as [E _]; rewrite E end.
    eexists. split; [reflexivity|]. split; reflexivity.
  - unfold check_xcodebuild. rewrite value_bind_eq, value_run_command.
    destruct (reported true (subprocess_run w ["xcodebuild"; "-version"]))
      as [[ok out] err]. simplify_eq. cbv beta iota.
    match goal with E : value (extract_version _ _) _ = Ret _ |- _ =>
      rewrite value_bind_eq, E end.
    eexists. split; [reflexivity|]. split; reflexivity.
Qed.

Lemma working_xcode_implies_its_parts_witness :
  (exists clt, value check_xcode_clt xcode_ready_world = Ret clt
               /\ working clt = true
               /\ path clt = Some "/Applications/Xcode.app/Contents/Developer")
  /\ (exists xb, value check_xcodebuild xcode_ready_world = Ret xb
                 /\ working xb = true /\ version xb = Some "15.0.1").
Proof.
  apply (working_xcode_implies_its_parts xcode_ready_world xcode_ready).
  - vm_compute; reflexivity.
  - reflexivity.
Defined.

(** ** Version patterns *)

(** X18. When the custom pattern matches but its first group took no part
    in the match, no version is reported: the default patterns are not
    tried, although they might find one. *)
Theorem unmatched_first_group_gives_no_version
  (w : World) (output pattern : string) (mo : MatchObj) (others : list (option string)) :
  truthy output = true ->
  truthy pattern = true ->
  re_search w pattern false output = Ret (Some mo) ->
  m_groups mo = None :: others ->
  value (extract_version output (Some pattern)) w = Ret None.
Proof.
  intros To Tp S G. unfold value.
  rewrite (extract_version_spec w output (Some pattern) To).
  unfold given_pattern, extract_version_as_specified. cbn [truthy_opt fst].
  now rewrite Tp, S, G.
Qed.

Lemma unmatched_first_group_gives_no_version_witness :
  value (extract_version "v1.2.3" (Some "(x)?v")) bare_world = Ret None
  /\ value (extract_version "v1.2.3" None) bare_world = Ret (Some "1.2.3").
Proof.
  split; [|vm_compute; reflexivity].
  apply (unmatched_first_group_gives_no_version bare_world "v1.2.3" "(x)?v"
           {| m_group0 := "v"; m_groups := [None] |} []).
  - reflexivity.
  - reflexivity.
  - vm_compute; reflexivity.
  - reflexivity.
Defined.

(** X19. A version pattern that [re.search] rejects is not caught: for a
    command entry whose executable is on the search path and whose version
    probe completes with some output, [check_tool] raises what [re.search]
    raised, after that one probe. *)
Theorem rejected_version_regex_raises
  (w : World) (tool_config : ToolConfig) (chk : CheckConfig)
  (command i n c pattern : string) (e : exn) :
  cfg_check tool_config = Some chk ->
  config_check_type tool_config = "command" ->
  chk_command chk = Some command ->
  cfg_id tool_config = Some i ->
  cfg_name tool_config = Some n ->
  cfg_category tool_config = Some c ->
  truthy_opt (which w command) = true ->
  chk_version_regex chk = Some pattern ->
  truthy pattern = true ->
  let primary := subprocess_run w [command; default "--version" (chk_version_flag chk)] in
  raised_text primary = None ->
  truthy (probe_output primary) = true ->
  re_search w pattern false (probe_output primary) = Raise e ->
  check_tool tool_config w
  = (Raise e, [[command; default "--version" (chk_version_flag chk)]]).
Proof.
  intros Hchk Hty Hcmd Hi Hn Hc Hw Hre Tp primary Hdone To Hraise.
  rewrite (command_entry_found w tool_config chk command i n c Hchk Hty Hcmd Hi Hn Hc Hw).
  rewrite (check_command_spec w command _ _ Hw). fold primary. rewrite Hdone.
  unfold with_version, value. rewrite Hre.
  rewrite (extract_version_spec w _ (Some pattern) To).
  unfold given_pattern, extract_version_as_specified. cbn [truthy_opt fst].
  now rewrite Tp, Hraise.
Qed.

Lemma rejected_version_regex_raises_witness :
  check_tool (widget_with_regex "(") widget_world
  = (Raise (ReError "("), [["widget"; "--version"]]).
Proof.
  apply (rejected_version_regex_raises widget_world (widget_with_regex "(")
           {| chk_type := Some "command"; chk_function := None;
              chk_command := Some "widget"; chk_version_flag := None;
              chk_version_regex := Some "("; chk_paths := None |}
           "widget" "widget" "Widget" "required" "(" (ReError "("));
    reflexivity.
Defined.

(** ** Framework ids *)

Lemma framework_id_char (c : ascii) :
  let d := if Ascii.eqb (PyStr.lower_char c) " " then "_"%char else PyStr.lower_char c in
  Ascii.eqb d " " = false
  /\ is_upper d = false
  /\ (if Ascii.eqb (PyStr.lower_char d) " " then "_"%char else PyStr.lower_char d) = d.
Proof.
  destruct c as [[] [] [] [] [] [] [] []]; vm_compute; repeat split.
Qed.

(** X20. The id of a framework result holds no space and no ASCII
    upper-case letter, and computing an id from an id changes nothing. *)
Theorem framework_id_is_normal (framework_name : string) :
  framework_id (framework_id framework_name) = framework_id framework_name
  /\ Forall (fun c => Ascii.eqb c " " = false /\ is_upper c = false)
       (PyStr.chars (framework_id framework_name)).
Proof.
  unfold framework_id.
  induction framework_name as [|c s [IH1 IH2]]; [split; [reflexivity|constructor]|].
  pose proof (framework_id_char c) as (A & B & C). cbv zeta in A, B, C.
  cbn [PyStr.lower PyStr.replace_char PyStr.chars list_ascii_of_string].
  split.
  - now rewrite C, IH1.
  - constructor; [now split|exact IH2].
Qed.

(** ** Configuration and exit status *)

Lemma value_lift {A : Type} (r : pyres A) w : value (lift r) w = r.
Proof. reflexivity. Qed.

Lemma checker_run_report w file report :
  value (checker_run file) w = Ret report -> report = report_of (tools report).
Proof.
  unfold checker_run. intros H. invert_value. eapply run_checks_report. eassumption.
Qed.

Lemma value_main w file emit exit_on_missing :
  value (main file emit exit_on_missing) w
  = match value (checker_run file) w with
    | Ret report =>
        match emit report with
        | Ret _ => Ret (exit_status exit_on_missing report)
        | Raise e => Raise e
        end
    | Raise e => Raise e
    end.
Proof.
  unfold main. rewrite value_bind_eq.
  destruct (value (checker_run file) w) as [report|e]; [|reflexivity].
  rewrite value_bind_eq, value_lift. now destruct (emit report).
Qed.

(** X6. When [main] gets to its end, the configuration loaded, the checks
    run and the output printed and written without an exception, it exits
    with status 1 exactly when it was asked to exit on missing tools and
    some required result of the report is not working, and with status 0 in
    every other case, always so without that flag. Nothing in [main]
    catches an exception: one raised while the output is printed or
    written, or by the run itself, ends [main] instead. *)
Theorem exit_status_of_a_run
  (w : World) (file : option (pyres Config)) (emit : Report -> pyres unit)
  (exit_on_missing : bool) :
  (forall report,
      value (checker_run file) w = Ret report ->
      emit report = Ret tt ->
      value (main file emit exit_on_missing) w = Ret (exit_status exit_on_missing report)
      /\ (exit_status exit_on_missing report = 1%Z
          <-> exit_on_missing = true
              /\ exists r, In r (tools report) /\ category r = "required"
                           /\ working r = false)
      /\ (exit_status exit_on_missing report = 1%Z
          \/ exit_status exit_on_missing report = 0%Z)
      /\ exit_status false report = 0%Z)
  /\ (forall report e,
        value (checker_run file) w = Ret report ->
        emit report = Raise e ->
        value (main file emit exit_on_missing) w = Raise e)
  /\ (forall e,
        value (checker_run file) w = Raise e ->
        value (main file emit exit_on_missing) w = Raise e).
Proof.
  split; [|split].
  - intros report H E. rewrite value_main, H, E. split; [reflexivity|].
    rewrite (checker_run_report w file report H). apply exit_status_spec.
  - intros report e H E. now rewrite value_main, H, E.
  - intros e H. now rewrite value_main, H.
Qed.

Lemma exit_status_of_a_run_witness :
  value (main (Some (Ret two_tools)) (fun _ => Ret tt) true) bare_world = Ret 1%Z.
Proof.
  apply (proj1 (exit_status_of_a_run bare_world (Some (Ret two_tools))
                  (fun _ => Ret tt) true) bare_report).
  - vm_compute; reflexivity.
  - reflexivity.
Defined.

(** X21. Without a configuration file, or with one that has no [tools]
    key, a run probes nothing and reports success: the report is empty,
    [all_required_present] holds and there is no recommendation; if the
    output is then printed and written without an exception, [main] exits
    with status 0 even when asked to exit on missing tools. A configuration
    file that cannot be read makes the run raise. *)
Theorem empty_configuration_reports_success
  (w : World) (config : Config) (e : exn) (emit : Report -> pyres unit)
  (exit_on_missing : bool) :
  checker_run None w = (Ret (report_of []), [])
  /\ (config_tools config = None ->
      checker_run (Some (Ret config)) w = (Ret (report_of []), []))
  /\ checker_run (Some (Raise e)) w = (Raise e, [])
  /\ all_required_present (summary (report_of [])) = true
  /\ recommendations (report_of []) = []
  /\ (emit (report_of []) = Ret tt ->
      main None emit exit_on_missing w = (Ret 0%Z, []))
  /\ (emit (report_of []) = Raise e ->
      main None emit exit_on_missing w = (Raise e, [])).
Proof.
  repeat split.
  - intros H. unfold checker_run, mbind, M_bind, lift, load_config. now rewrite H.
  - intros H. unfold main, mbind, M_bind.
    change (checker_run None w) with (Ret (report_of []), [] : list argv).
    cbv beta iota. unfold lift. rewrite H. unfold exit_status. simpl.
    now rewrite andb_false_r.
  - intros H. unfold main, mbind, M_bind.
    change (checker_run None w) with (Ret (report_of []), [] : list argv).
    cbv beta iota. unfold lift. now rewrite H.
Qed.

Lemma empty_configuration_reports_success_witness :
  main None (fun _ => Ret tt) true bare_world = (Ret 0%Z, []).
Proof.
  apply (proj1 (proj2 (proj2 (proj2 (proj2 (proj2
           (empty_configuration_reports_success bare_world get_default_config
              (KeyError "tools") (fun _ => Ret tt) true))))))).
  reflexivity.
Defined.

(** ** The text formatter *)

Lemma line_if_length prefix value :
  List.length (line_if prefix value) = if truthy_opt value then 1 else 0.
Proof. unfold line_if. now destruct (truthy_opt value). Qed.

Lemma install_lines_spec tool :
  install_lines tool
  = if working tool then []
    else line_if branch_install (action (critical_recommendation tool)).
Proof.
  unfold install_lines, critical_recommendation, line_if, py_or. simpl.
  destruct (working tool); [reflexivity|]. simpl.
  destruct (truthy_hint tool) as [inst|]; [|reflexivity].
  destruct (truthy_opt (inst !! "command")) eqn:C; [now rewrite C|].
  now destruct (truthy_opt (inst !! "url")).
Qed.

(** X22. The text of a tool shows an installation line only for a tool
    that is not working, and the line shows exactly the action that the
    critical recommendation for that tool would carry (the command of the
    hint, else its URL), whatever the category of the tool. *)
Theorem install_line_is_the_critical_action (tool : ToolResult) :
  (working tool = true -> install_lines tool = [])
  /\ (working tool = false ->
      install_lines tool
      = line_if branch_install (action (critical_recommendation tool)))
  /\ (forall l, In l (install_lines tool) ->
                exists a, l = branch_install ++ a
                          /\ action (critical_recommendation tool) = Some a
                          /\ truthy a = true).
Proof.
  rewrite install_lines_spec. repeat split.
  - now intros ->.
  - now intros ->.
  - destruct (working tool); [intros l []|]. unfold line_if.
    destruct (action (critical_recommendation tool)) as [a|]; simpl; [|intros l []].
    destruct (truthy a) eqn:T; [|intros l []].
    intros l [<-|[]]. now exists a.
Qed.

Lemma install_line_is_the_critical_action_witness :
  install_lines gadget_missing = [branch_install ++ "https://example.com/gadget"]
  /\ action (low_recommendation gadget_missing) = None.
Proof.
  split; [|reflexivity].
  refine (eq_trans
    (proj1 (proj2 (install_line_is_the_critical_action gadget_missing)) _) _);
    reflexivity.
Defined.

(** X23. The text of a tool is its headline, one line for a non-empty
    version, one for a non-empty path, one line for each issue and one more
    for each issue with a non-empty fix, the installation line if there is
    one, and an empty line that closes it. *)
Theorem format_tool_lines (tool : ToolResult) :
  exists body,
    format_tool tool = (headline tool :: body ++ [""])%list
    /\ List.length (format_tool tool)
       = 2 + (if truthy_opt (version tool) then 1 else 0)
           + (if truthy_opt (path tool) then 1 else 0)
           + List.length (issues tool)
           + List.length (List.filter (fun i => truthy_opt (fix_ i)) (issues tool))
           + List.length (install_lines tool).
Proof.
  unfold format_tool. eexists. split.
  - rewrite !app_assoc. reflexivity.
  - assert (I : forall l, List.length (flat_map issue_lines l)
                          = List.length l
                            + List.length (List.filter (fun i => truthy_opt (fix_ i)) l)).
    { induction l as [|i l IH]; [reflexivity|].
      change (flat_map issue_lines (i :: l))
        with (((branch_issue ++ message i)%string :: line_if branch_fix (fix_ i))
              ++ flat_map issue_lines l)%list.
      rewrite length_app, IH. cbn [List.length List.filter].
      rewrite line_if_length. destruct (truthy_opt (fix_ i)); simpl; lia. }
    cbn [List.length]. rewrite !length_app, !line_if_length, I. cbn [List.length]. lia.
Qed.

Lemma in_category_shown cat results :
  cat = "required" \/ cat = "optional" \/ cat = "project-specific" ->
  in_category cat (List.filter shown results) = in_category cat results.
Proof.
  intros H. unfold in_category. apply filter_filter_implied.
  intros r E. unfold shown. destruct H as [->|[->| ->]]; rewrite E;
    rewrite ?orb_true_r; reflexivity.
Qed.

(** X24. The text has a group for each of the categories [required],
    [optional] and [project-specific] and for no other: results of any other
    category are left out of it. *)
Theorem format_leaves_out_other_categories (system : SystemInfo) (results : Report) :
  format system (with_tools results (List.filter shown (tools results)))
  = format system results.
Proof.
  unfold format, format_lines, with_tools, verdict_lines. cbn [tools summary recommendations].
  rewrite !in_category_shown by auto. reflexivity.
Qed.

Lemma in_format_group heading rule group tool l :
  In tool group -> In l (format_tool tool) -> In l (format_group heading rule group).
Proof.
  intros Ht Hl. unfold format_group. destruct group as [|t g]; [destruct Ht|].
  right. right. apply in_flat_map. now exists tool.
Qed.

(** X25. Nothing of a shown result is lost in the text: every line of the
    text of a tool of one of the three categories is a line of the output;
    and when the summary says that required tools are missing, the message
    of every critical recommendation, and its action when it has one, is a
    line of the output. *)
Theorem format_shows_tools_and_quick_fixes (system : SystemInfo) (results : Report) :
  (forall tool l,
      In tool (tools results) -> shown tool = true -> In l (format_tool tool) ->
      In l (format_lines system results))
  /\ (forall rec,
        all_required_present (summary results) = false ->
        In rec (recommendations results) -> priority rec = "critical" ->
        In (bullet ++ rec_message rec) (format_lines system results)
        /\ (forall a, action rec = Some a -> truthy a = true ->
                      In ("    " ++ a) (format_lines system results))).
Proof.
  split.
  - intros tool l Ht Hs Hl. unfold format_lines.
    apply in_or_app. right. unfold shown in Hs.
    destruct (String.eqb (category tool) "required") eqn:R.
    { apply in_or_app. left. apply (in_format_group _ _ _ tool); [|exact Hl].
      apply filter_In. now split. }
    apply in_or_app. right.
    destruct (String.eqb (category tool) "optional") eqn:O.
    { apply in_or_app. left. apply (in_format_group _ _ _ tool); [|exact Hl].
      apply filter_In. now split. }
    apply in_or_app. right. apply in_or_app. left.
    apply (in_format_group _ _ _ tool); [|exact Hl]. apply filter_In. now split.
  - intros rec Hm Hr Hp.
    assert (Q : forall l, In l (quick_fix_lines rec) -> In l (format_lines system results)).
    { intros l Hl. unfold format_lines. do 6 (apply in_or_app; right).
      apply in_or_app. left. unfold verdict_lines. rewrite Hm.
      assert (I : In rec (List.filter (fun r => String.eqb (priority r) "critical")
                            (recommendations results))).
      { apply filter_In. split; [exact Hr|]. now rewrite Hp. }
      destruct (List.filter _ (recommendations results)) as [|c cs] eqn:E; [destruct I|].
      do 5 right. apply in_flat_map. exists rec. now split. }
    split.
    + apply Q. now left.
    + intros a Ha Ta. apply Q. right. unfold line_if. rewrite Ha. simpl. rewrite Ta.
      now left.
Qed.

Lemma format_shows_tools_and_quick_fixes_witness :
  In (bullet ++ "Install Xcode - required for building") (format_lines a_mac bare_report)
  /\ In "    https://apps.apple.com/us/app/xcode/id497799835"
       (format_lines a_mac bare_report).
Proof.
  destruct (proj2 (format_shows_tools_and_quick_fixes a_mac bare_report)
              {| priority := "critical";
                 rec_message := "Install Xcode - required for building";
                 action := Some "https://apps.apple.com/us/app/xcode/id497799835" |})
    as [M A].
  - reflexivity.
  - now left.
  - reflexivity.
  - split; [exact M|]. apply (A _ eq_refl). reflexivity.
Defined.
